(** * altair_saver: the command-line (node) and headless-browser (pyppeteer) savers

    A shallow embedding of [altair_savechart/_node.py] and
    [altair_saver/savers/_pyppeteer.py].  Both files are adapter code: they
    validate a (mode, format) request, call external tools and wrap the
    answer in a mimebundle.  The embedding keeps that shape:

    - Python values that cross the layer are a [json] tree or raw [bytes];
    - exceptions are a sum type whose classes are related by [isinstance],
      strings are the UTF-8 bytes of a [str], computations live in a
      state-and-error monad [M];
    - everything outside the interpreter (npm, the converter binaries, the
      file system, the browser) is reached through the [Host] interface and
      every spawned process or browser call is recorded in a trace, so that
      "no external process was invoked" is a statement about the trace;
    - library functions whose code is not part of the repository
      ([json.dumps], [json.loads], [base64.b64decode], ...) are the [PyLib]
      interface. *)

From stdpp Require Import gmap strings list fin_maps pretty.
From Stdlib Require Import Strings.Ascii Strings.Byte.

Set Warnings "-register-all".

(** ** Values *)

(** JSON-serialisable Python values.  Chart specifications are never
    inspected by the savers, so numbers are kept as integer literals. *)
Inductive json : Type :=
| JNull
| JBool (b : bool)
| JNum (z : Z)
| JStr (s : string)
| JArr (l : list json)
| JObj (m : gmap string json).

Abbreviation bytes := (list byte).

#[global] Instance byte_eq_decision : EqDecision byte := Byte.byte_eq_dec.

(** [MimebundleContent]: text and JSON are [json] values, PNG and PDF are
    raw bytes. *)
Inductive content : Type :=
| CVal (v : json)
| CBytes (b : bytes).

Abbreviation Mimebundle := (gmap string content).

(** ** Exceptions *)

(** An exception raised inside a library or by the outside world
    ([CalledProcessError], [OSError], [JSONDecodeError], a pyppeteer
    error...). *)
Record lib_error := LibError { err_class : string; err_detail : string }.

Inductive exn : Type :=
| ValueError (msg : string)
| RuntimeError (msg : string)
| JavascriptError (arg : json)
| KeyError (key : string)
| IndexError
| AssertionError
| LibraryError (e : lib_error).

Inductive outcome (A : Type) : Type :=
| Ok (a : A)
| Raise (e : exn).
Arguments Ok {A} a.
Arguments Raise {A} e.

(** The constructors of [exn] say which class was raised, and
    [LibraryError] carries the name of the class of a library's exception.
    An [except] clause catches the subclasses of its class too:
    [base_class] gives the direct base of the classes that the savers and
    the libraries they call raise ([JSONDecodeError], [UnicodeDecodeError]
    and [binascii.Error] are [ValueError]s, [JavascriptError] is a
    [RuntimeError]), and [isinstance] follows it upwards. *)
Definition class_of (e : exn) : string :=
  match e with
  | ValueError _ => "ValueError"
  | RuntimeError _ => "RuntimeError"
  | JavascriptError _ => "JavascriptError"
  | KeyError _ => "KeyError"
  | IndexError => "IndexError"
  | AssertionError => "AssertionError"
  | LibraryError e => err_class e
  end.

Definition base_class (cls : string) : option string :=
  if decide (cls = "JavascriptError") then Some "RuntimeError"
  else if decide (cls ∈ ["JSONDecodeError"; "UnicodeError"; "binascii.Error"])
  then Some "ValueError"
  else if decide (cls = "UnicodeDecodeError") then Some "UnicodeError"
  else if decide (cls ∈ ["KeyError"; "IndexError"]) then Some "LookupError"
  else if decide (cls ∈ ["FileNotFoundError"; "PermissionError"]) then Some "OSError"
  else if decide (cls = "CalledProcessError") then Some "SubprocessError"
  else if decide (cls ∈ ["ValueError"; "RuntimeError"; "LookupError"; "AssertionError";
                         "AttributeError"; "OSError"; "SubprocessError"])
  then Some "Exception"
  else None.

(** [cls] is [base] or reaches it in at most [n] steps; no chain above is
    longer than three. *)
Fixpoint subclass (n : nat) (cls base : string) : bool :=
  bool_decide (cls = base)
  || match n with
     | 0 => false
     | S n' =>
         match base_class cls with
         | Some b => subclass n' b base
         | None => false
         end
     end.

Definition isinstance (e : exn) (cls : string) : bool := subclass 3 (class_of e) cls.

(** ** String functions of the Python runtime used by the savers *)

Definition nl : string := String "010"%char EmptyString.

(** [s.split(sep)] for a one-character separator. *)
Fixpoint split (sep : ascii) (s : string) : list string :=
  match s with
  | EmptyString => [EmptyString]
  | String c s' =>
      if decide (c = sep) then EmptyString :: split sep s'
      else match split sep s' with
           | x :: xs => String c x :: xs
           | [] => [String c EmptyString]
           end
  end.

(** [s.split(sep, 1)]: at most one split, at the first separator. *)
Fixpoint split_once (sep : ascii) (s : string) : list string :=
  match s with
  | EmptyString => [EmptyString]
  | String c s' =>
      if decide (c = sep) then [EmptyString; s']
      else match split_once sep s' with
           | x :: xs => String c x :: xs
           | [] => [String c EmptyString]
           end
  end.

(** [c in s] for a character. *)
Fixpoint has_char (c : ascii) (s : string) : bool :=
  match s with
  | EmptyString => false
  | String d s' => bool_decide (d = c) || has_char c s'
  end.

(** [v.split(".")[0]]; the list returned by [split] is never empty. *)
Definition major (v : string) : string :=
  default EmptyString (split "." v !! 0%nat).

(** A [str] is held as its UTF-8 encoding, one [ascii] per byte; text that
    [subprocess.check_output(..., encoding="utf-8")] returns is valid UTF-8,
    since decoding has succeeded. *)

(** The UTF-8 encoding of a code point of the basic plane. *)
Definition utf8 (n : N) : string :=
  if (n <? 0x80)%N then String (ascii_of_N n) EmptyString
  else if (n <? 0x800)%N then
    String (ascii_of_N (0xC0 + n / 64)) (String (ascii_of_N (0x80 + n mod 64)) EmptyString)
  else
    String (ascii_of_N (0xE0 + n / 4096))
      (String (ascii_of_N (0x80 + (n / 64) mod 64))
         (String (ascii_of_N (0x80 + n mod 64)) EmptyString)).

(** The characters that [str.strip] removes, those [str.isspace] holds of:
    the ASCII ones (tab to carriage return, the four separators, the
    space) and, beyond ASCII, next line, no-break space, ogham space mark,
    en quad to hair space, line and paragraph separator, narrow no-break
    space, medium mathematical space and ideographic space. *)
Definition whitespace : list string :=
  utf8 <$> [0x09; 0x0A; 0x0B; 0x0C; 0x0D; 0x1C; 0x1D; 0x1E; 0x1F; 0x20;
            0x85; 0xA0; 0x1680;
            0x2000; 0x2001; 0x2002; 0x2003; 0x2004; 0x2005; 0x2006; 0x2007;
            0x2008; 0x2009; 0x200A;
            0x2028; 0x2029; 0x202F; 0x205F; 0x3000]%N.

(** [s] without the prefix [p], if it starts with it. *)
Fixpoint drop_prefix (p s : string) : option string :=
  match p, s with
  | EmptyString, _ => Some s
  | String a p', String b s' => if decide (a = b) then drop_prefix p' s' else None
  | String _ _, EmptyString => None
  end.

(** [s] without its first character, if that is one of [chars]. *)
Definition skip_one (chars : list string) (s : string) : option string :=
  head (omap (λ c, drop_prefix c s) chars).

(** The characters of [chars] are skipped one at a time; each takes at least
    one byte, so [n] steps are enough for a string of [n] bytes. *)
Fixpoint skip_all (chars : list string) (n : nat) (s : string) : string :=
  match n with
  | 0 => s
  | S n' =>
      match skip_one chars s with
      | Some s' => skip_all chars n' s'
      | None => s
      end
  end.

Definition lstrip (s : string) : string := skip_all whitespace (String.length s) s.

(** From the right the same is done on the reversed bytes: in valid UTF-8 a
    lead byte starts a character wherever it stands, so a suffix that is the
    encoding of a character is that character. *)
Definition rstrip (s : string) : string :=
  String.rev (skip_all (String.rev <$> whitespace) (String.length s) (String.rev s)).

Definition strip (s : string) : string := rstrip (lstrip s).

Definition startswith (p s : string) : bool := String.prefix p s.

Fixpoint endswith_char (c : ascii) (s : string) : bool :=
  match s with
  | EmptyString => false
  | String d EmptyString => bool_decide (d = c)
  | String _ s' => endswith_char c s'
  end.

(** [os.path.join] (posixpath): a component that starts with the separator
    replaces what came before; otherwise it is appended, with a separator
    unless the path so far is empty or already ends with one. *)
Definition path_join_step (path b : string) : string :=
  if startswith "/" b then b
  else if bool_decide (path = EmptyString) || endswith_char "/" path
       then path +:+ b
       else path +:+ "/" +:+ b.

Definition os_path_join (a : string) (p : list string) : string :=
  foldl path_join_step a p.

(** ** The interfaces to what lies outside the repository *)

(** Library functions.  [json.dumps] on a [json] value and [str.encode]
    cannot fail; the decoders can. *)
Class PyLib := {
  json_dumps : json → string;
  str_encode : string → bytes;
  json_loads : bytes → lib_error + json;
  bytes_decode : bytes → lib_error + string;
  b64decode : bytes → lib_error + bytes;
  (* [alt.VEGA_VERSION] and [alt.VEGALITE_VERSION] of the installed altair *)
  VEGA_VERSION : string;
  VEGALITE_VERSION : string;
}.

(** The outside world, with a state [W] of its own that every call may
    change: [subprocess.check_output] with and without an encoding, the two
    file-system tests, and the pyppeteer calls ([launch], [newPage],
    [setContent], [addScriptTag], [evaluate], and the two [close]s).
    Browsers and pages are handles. *)
Class Host (W : Type) := {
  check_output_text : list string → W → (lib_error + string) * W;
  check_output : list string → bytes → W → (lib_error + bytes) * W;
  isdir : string → W → bool;
  path_exists : string → W → bool;
  launch : W → (lib_error + nat) * W;
  newPage : nat → W → (lib_error + nat) * W;
  setContent : nat → W → (lib_error + unit) * W;
  addScriptTag : nat → string → W → (lib_error + unit) * W;
  evaluate : nat → json → gmap string json → string → W →
             (lib_error + gmap string json) * W;
  page_close : nat → W → (lib_error + unit) * W;
  browser_close : nat → W → (lib_error + unit) * W;
}.

(** One entry per external process spawned or browser call made, in the
    order they happen. *)
Inductive event : Type :=
| Spawn (cmd : list string) (input : option bytes)
| BrowserLaunch
| BrowserNewPage (browser : nat)
| PageSetContent (page : nat)
| PageAddScriptTag (page : nat) (url : string)
| PageEvaluate (page : nat) (spec : json) (opt : gmap string json) (fmt : string)
| PageClose (page : nat)
| BrowserClose (browser : nat).

(** ** Interpreter state and the monad of computations *)

(** [heap] holds the mutable dictionaries that are shared by reference;
    [npm_root_cache] is the store of the [lru_cache(1)] wrapper around
    [_NodeCommands.npm_root]: at most one entry, keyed by the identity of
    the instance the property was read on. *)
Record state (W : Type) := State {
  world : W;
  trace : list event;
  heap : gmap nat (gmap string json);
  npm_root_cache : option (nat * string);
}.
Arguments State {W}.
Arguments world {W}.
Arguments trace {W}.
Arguments heap {W}.
Arguments npm_root_cache {W}.

Definition M (W A : Type) : Type := state W → outcome A * state W.

#[global] Instance M_ret {W} : MRet (M W) := λ A a st, (Ok a, st).

#[global] Instance M_bind {W} : MBind (M W) := λ A B f m st,
  match m st with
  | (Ok a, st') => f a st'
  | (Raise e, st') => (Raise e, st')
  end.

Definition raise {W A} (e : exn) : M W A := λ st, (Raise e, st).

(** A library call: its error, if any, is raised. *)
Definition lift {W A} (r : lib_error + A) : M W A :=
  match r with
  | inl e => raise (LibraryError e)
  | inr a => mret a
  end.

(** A call to the outside world: logged, then answered by the host. *)
Definition host_call {W A} (ev : event)
    (f : W → (lib_error + A) * W) : M W A := λ st,
  let '(r, w) := f (world st) in
  let st' := State w (trace st ++ [ev]) (heap st) (npm_root_cache st) in
  match r with
  | inl e => (Raise (LibraryError e), st')
  | inr a => (Ok a, st')
  end.

(** A file-system test: answered by the host, nothing is spawned. *)
Definition host_query {W A} (f : W → A) : M W A := λ st, (Ok (f (world st)), st).

Fixpoint for_each {W A} (l : list A) (body : A → M W unit) : M W unit :=
  match l with
  | [] => mret tt
  | x :: l' => body x ;; for_each l' body
  end.

(** [functools.lru_cache(1)] around a one-argument function called with
    the object [key]: a hit returns the stored value; a miss runs the
    function and, if it returns, stores its value in the single slot,
    evicting what was there.  An exception leaves the slot as it was. *)
Definition cache_lookup {W} (key : nat) (st : state W) : option string :=
  match npm_root_cache st with
  | Some (k, v) => if decide (k = key) then Some v else None
  | None => None
  end.

Definition cache_store {W} (key : nat) (v : string) (st : state W) : state W :=
  State (world st) (trace st) (heap st) (Some (key, v)).

Definition lru_cache_1 {W} (f : M W string) (key : nat) : M W string := λ st,
  match cache_lookup key st with
  | Some v => (Ok v, st)
  | None =>
      match f st with
      | (Ok v, st') => (Ok v, cache_store key v st')
      | (Raise e, st') => (Raise e, st')
      end
  end.

(** ** Dictionaries held by reference *)

(** [d[k]] on a dictionary value. *)
Definition getitem {W A} (d : gmap string A) (k : string) : M W A :=
  match d !! k with
  | Some v => mret v
  | None => raise (KeyError k)
  end.

Definition set_heap {W} (h : gmap nat (gmap string json)) (st : state W) : state W :=
  State (world st) (trace st) h (npm_root_cache st).

(** An attribute that does not hold a dictionary has no [copy] method and
    supports no item assignment. *)
Definition not_a_dict : exn := LibraryError (LibError "AttributeError" "not a dict").

(** [d.copy()]: a new dictionary with the same entries, at a new address. *)
Definition dict_copy {W} (l : nat) : M W nat := λ st,
  match heap st !! l with
  | Some d =>
      let l' := fresh (dom (heap st)) in
      (Ok l', set_heap (<[l' := d]> (heap st)) st)
  | None => (Raise not_a_dict, st)
  end.

(** [d[k] = v], in place. *)
Definition dict_setitem {W} (l : nat) (k : string) (v : json) : M W unit := λ st,
  match heap st !! l with
  | Some d => (Ok tt, set_heap (<[l := <[k := v]> d]> (heap st)) st)
  | None => (Raise not_a_dict, st)
  end.

(** The entries of a dictionary, as they are serialised for a call. *)
Definition dict_read {W} (l : nat) : M W (gmap string json) := λ st,
  match heap st !! l with
  | Some d => (Ok d, st)
  | None => (Raise not_a_dict, st)
  end.

(** ** Relations between the state before and after a computation *)

Section Relations.
Context {W : Type}.

(** [preserves R m]: from any state, the state [m] ends in is related to
    the one it started in. *)
Definition preserves {A} (R : relation (state W)) (m : M W A) : Prop :=
  ∀ st, R st (m st).2.

(** The heap is the same. *)
Definition same_heap : relation (state W) := λ st st', heap st' = heap st.

(** The cache of [npm_root] is the same. *)
Definition same_cache : relation (state W) := λ st st',
  npm_root_cache st' = npm_root_cache st.

(** The trace has grown, by events that all satisfy [P]. *)
Definition grown (P : event → Prop) : relation (state W) := λ st st',
  ∃ evs, trace st' = trace st ++ evs ∧ Forall P evs.

(** The event is not the evaluation of a script in a page. *)
Definition not_evaluate (ev : event) : Prop :=
  match ev with PageEvaluate _ _ _ _ => False | _ => True end.

(** Nothing is evaluated in a page and the heap is the same. *)
Definition quiet : relation (state W) := λ st st',
  heap st' = heap st ∧ grown not_evaluate st st'.

(** An evaluation, if [ev] is one, was given the dictionary stored at [l]
    in the heap [h], with "mode" set. *)
Definition options_sent (l : nat) (mode : string)
    (h : gmap nat (gmap string json)) (ev : event) : Prop :=
  match ev with
  | PageEvaluate _ _ opt _ => ∃ d, h !! l = Some d ∧ opt = <["mode" := JStr mode]> d
  | _ => True
  end.

(** The dictionaries of the start state are all still there, unchanged,
    and the page was only ever given a copy of the one at [l]. *)
Definition options_copied (l : nat) (mode : string) : relation (state W) := λ st st',
  heap st' !! l = heap st !! l ∧
  (∀ k, is_Some (heap st !! k) → heap st' !! k = heap st !! k) ∧
  grown (options_sent l mode (heap st)) st st'.

End Relations.

(** * The command-line saver: [altair_savechart/_node.py] *)

Module Node.
Section Defs.
Context {lib : PyLib} {W : Type} {host : Host W}.

(** [_NodeCommands]; [oid] is the identity of the object, which is what
    [lru_cache] hashes. *)
Record _NodeCommands := NodeCommands { oid : nat; _global : bool }.

Definition _install_cmd (self : _NodeCommands) : string :=
  if _global self then "Install with npm install -g vega-lite vega-cli"
  else "Install with npm install vega-lite vega-cli".

Definition npm_cmd (self : _NodeCommands) : list string :=
  ["npm"; "root"] ++ (if _global self then ["--global"] else []).

(** The body of the [npm_root] property, before decoration. *)
Definition npm_root_body (self : _NodeCommands) : M W string :=
  let cmd := npm_cmd self in
  out ← host_call (Spawn cmd None) (check_output_text cmd);
  let npm_root := strip out in
  d ← host_query (isdir npm_root);
  if negb d then raise (RuntimeError ("npm root not found; got " +:+ npm_root))
  else mret npm_root.

Definition npm_root (self : _NodeCommands) : M W string :=
  lru_cache_1 (npm_root_body self) (oid self).

Definition cannot_find (self : _NodeCommands) (name path : string) : exn :=
  RuntimeError ("Cannot find " +:+ name +:+ " command: tried " +:+ path
                +:+ nl +:+ _install_cmd self).

Definition vl2vg (self : _NodeCommands) (spec : json) : M W json :=
  root ← npm_root self;
  let vl2vg := os_path_join root ["vega-lite"; "bin"; "vl2vg"] in
  e ← host_query (path_exists vl2vg);
  if negb e then raise (cannot_find self "vl2vg" vl2vg) else
  let vl_json := str_encode (json_dumps spec) in
  vg_json ← host_call (Spawn [vl2vg] (Some vl_json)) (check_output [vl2vg] vl_json);
  lift (json_loads vg_json).

Definition vg2png (self : _NodeCommands) (spec : json) : M W bytes :=
  root ← npm_root self;
  let vg2png := os_path_join root ["vega-cli"; "bin"; "vg2png"] in
  e ← host_query (path_exists vg2png);
  if negb e then raise (cannot_find self "vg2png" vg2png) else
  let vg_json := str_encode (json_dumps spec) in
  host_call (Spawn [vg2png] (Some vg_json)) (check_output [vg2png] vg_json).

Definition vg2pdf (self : _NodeCommands) (spec : json) : M W bytes :=
  root ← npm_root self;
  let vg2pdf := os_path_join root ["vega-cli"; "bin"; "vg2pdf"] in
  e ← host_query (path_exists vg2pdf);
  if negb e then raise (cannot_find self "vg2pdf" vg2pdf) else
  let vg_json := str_encode (json_dumps spec) in
  host_call (Spawn [vg2pdf] (Some vg_json)) (check_output [vg2pdf] vg_json).

Definition vg2svg (self : _NodeCommands) (spec : json) : M W string :=
  root ← npm_root self;
  let vg2svg := os_path_join root ["vega-cli"; "bin"; "vg2svg"] in
  e ← host_query (path_exists vg2svg);
  if negb e then raise (cannot_find self "vg2svg" vg2svg) else
  let vg_json := str_encode (json_dumps spec) in
  out ← host_call (Spawn [vg2svg] (Some vg_json)) (check_output [vg2svg] vg_json);
  lift (bytes_decode out).

Definition vl2png (self : _NodeCommands) (spec : json) : M W bytes :=
  vg_spec ← vl2vg self spec;
  vg2png self vg_spec.

Definition vl2pdf (self : _NodeCommands) (spec : json) : M W bytes :=
  vg_spec ← vl2vg self spec;
  vg2pdf self vg_spec.

Definition vl2svg (self : _NodeCommands) (spec : json) : M W string :=
  vg_spec ← vl2vg self spec;
  vg2svg self vg_spec.

(** [NodeSaver]; [_spec] and [_mode] are set by the base class from the
    constructor's arguments. *)
Record NodeSaver := {
  _node : _NodeCommands;
  _spec : json;
  _mode : string;
}.

Definition valid_formats : list string := ["pdf"; "png"; "svg"; "vega"; "vega-lite"].

Definition vegalite_mimetype : string :=
  "application/vnd.vegalite.v" +:+ major VEGALITE_VERSION +:+ "+json".

Definition vega_mimetype : string :=
  "application/vnd.vega.v" +:+ major VEGA_VERSION +:+ "+json".

Definition _mimebundle (self : NodeSaver) (fmt : string) : M W Mimebundle :=
  if decide (_mode self ∉ ["vega"; "vega-lite"]) then
    raise (ValueError "mode must be either 'vega' or 'vega-lite'")
  else if decide (_mode self = "vega" ∧ fmt = "vega-lite") then
    raise (ValueError "mode='vega' not compatible with fmt='vega-lite'")
  else
    let spec := _spec self in
    if decide (_mode self = "vega-lite" ∧ fmt = "vega-lite") then
      mret {[ vegalite_mimetype := CVal spec ]}
    else
      spec ← (if decide (_mode self = "vega-lite")
              then vl2vg (_node self) spec else mret spec);
      if decide (fmt = "vega") then
        mret {[ vega_mimetype := CVal spec ]}
      else if decide (fmt = "png") then
        out ← vg2png (_node self) spec; mret {[ "image/png" := CBytes out ]}
      else if decide (fmt = "svg") then
        out ← vg2svg (_node self) spec; mret {[ "image/svg+xml" := CVal (JStr out) ]}
      else if decide (fmt = "pdf") then
        out ← vg2pdf (_node self) spec; mret {[ "application/pdf" := CBytes out ]}
      else
        raise (ValueError ("Unrecognized format: " +:+ fmt)).

(** What the specification calls the chain of a composite conversion: run
    the vega-lite to vega upgrade and, in the state that leaves, hand its
    result to the vega converter. *)
Definition chain {A} (self : _NodeCommands)
    (convert : _NodeCommands → json → M W A) (spec : json) : M W A := λ st,
  match vl2vg self spec st with
  | (Ok vg_spec, st1) => convert self vg_spec st1
  | (Raise e, st1) => (Raise e, st1)
  end.

(** The (mode, format) pairs the saver accepts: a known mode, a format of
    [valid_formats], and not the one pair that [_mimebundle] refuses. *)
Definition compatible (mode fmt : string) : Prop :=
  mode ∈ ["vega"; "vega-lite"] ∧ fmt ∈ valid_formats ∧
  ¬ (mode = "vega" ∧ fmt = "vega-lite").

(** A host on which the tool chain is installed under [root] and works, in
    every world that satisfies [good]: [npm root] prints [root], which is a
    directory; the four converters exist and exit with status 0, leaving a
    good world; what [vl2vg] prints parses as JSON and what [vg2svg] prints
    decodes as text. *)
Definition converters : list (string * string) :=
  [("vega-lite", "vl2vg"); ("vega-cli", "vg2png");
   ("vega-cli", "vg2pdf"); ("vega-cli", "vg2svg")].

Record working (self : _NodeCommands) (root : string) (good : W → Prop) : Prop := {
  npm_reports w :
    good w →
    ∃ out w', check_output_text (npm_cmd self) w = (inr out, w')
              ∧ strip out = root ∧ good w';
  root_is_dir w : good w → isdir root w = true;
  converter_exists w pkg name :
    good w → (pkg, name) ∈ converters →
    path_exists (os_path_join root [pkg; "bin"; name]) w = true;
  converter_runs w pkg name input :
    good w → (pkg, name) ∈ converters →
    ∃ out w', check_output [os_path_join root [pkg; "bin"; name]] input w = (inr out, w')
              ∧ good w';
  vl2vg_parses w input out w' :
    good w →
    check_output [os_path_join root ["vega-lite"; "bin"; "vl2vg"]] input w = (inr out, w') →
    ∃ j, json_loads out = inr j;
  vg2svg_decodes w input out w' :
    good w →
    check_output [os_path_join root ["vega-cli"; "bin"; "vg2svg"]] input w = (inr out, w') →
    ∃ s, bytes_decode out = inr s;
}.

(** A state in which the world is good and the cache holds nothing for the
    instance, or the root. *)
Definition ready (self : _NodeCommands) (root : string) (good : W → Prop)
    (st : state W) : Prop :=
  good (world st) ∧
  (cache_lookup (oid self) st = None ∨ cache_lookup (oid self) st = Some root).

(** The result of a discovery that found no directory at the path [npm
    root] printed: the error, and the state after the query. *)
Definition root_not_found {A} (self : _NodeCommands) (out : string) (w' : W)
    (st : state W) : outcome A * state W :=
  (Raise (RuntimeError ("npm root not found; got " +:+ strip out)),
   State w' (trace st ++ [Spawn (npm_cmd self) None]) (heap st) (npm_root_cache st)).

(** Modelled from the spec: the request check of [produce_mimebundle] in the
    [Saver] base class, whose file is not among the sources.  Section 7 of
    the specification: "Invalid request error: incompatible mode/format
    combination, or an unrecognized format string -- fatal, raised before
    any external process is invoked"; the formats this saver recognizes are
    the ones its [valid_formats] lists. *)
Definition check_request (self : NodeSaver) (fmt : string) : M W unit :=
  if decide (fmt ∈ valid_formats) then mret tt
  else raise (ValueError ("invalid fmt=" +:+ fmt)).

(** Modelled from the spec: [produce_mimebundle(format)] of the [Saver]
    contract for this saver: the request is checked, then the bundle is
    made by [_mimebundle]. *)
Definition produce_mimebundle (self : NodeSaver) (fmt : string) : M W Mimebundle :=
  check_request self fmt;; _mimebundle self fmt.

(** The states an instance can be brought to by using it: any sequence of
    reads of [npm_root], of calls of its converters and composite
    conversions, and of [_mimebundle] on savers built on it, whether the
    calls return or raise. *)
Inductive uses (self : _NodeCommands) (st : state W) : state W → Prop :=
| uses_none : uses self st st
| uses_npm_root st' : uses self st st' → uses self st (npm_root self st').2
| uses_vl2vg st' spec : uses self st st' → uses self st (vl2vg self spec st').2
| uses_vg2png st' spec : uses self st st' → uses self st (vg2png self spec st').2
| uses_vg2pdf st' spec : uses self st st' → uses self st (vg2pdf self spec st').2
| uses_vg2svg st' spec : uses self st st' → uses self st (vg2svg self spec st').2
| uses_vl2png st' spec : uses self st st' → uses self st (vl2png self spec st').2
| uses_vl2pdf st' spec : uses self st st' → uses self st (vl2pdf self spec st').2
| uses_vl2svg st' spec : uses self st st' → uses self st (vl2svg self spec st').2
| uses_mimebundle st' (saver : NodeSaver) fmt :
    _node saver = self → uses self st st' → uses self st (_mimebundle saver fmt st').2.

End Defs.
End Node.

(** A run of one of the four converters installed under [root], fed a
    spec on its standard input. *)
Definition converter_run (root : string) (ev : event) : Prop :=
  ∃ pkg name input,
    (pkg, name) ∈ Node.converters
    ∧ ev = Spawn [os_path_join root [pkg; "bin"; name]] (Some input).

(** The cache is the same, and nothing was run but converters under [root]. *)
Definition converters_only {W} (root : string) : relation (state W) := λ st st',
  npm_root_cache st' = npm_root_cache st ∧ grown (converter_run root) st st'.

(** * The headless-browser saver: [altair_saver/savers/_pyppeteer.py] *)

Module Pyppeteer.
Section Defs.
Context {lib : PyLib} {W : Type} {host : Host W}.

Definition CDN_URL (package version : string) : string :=
  "https://cdn.jsdelivr.net/npm/" +:+ package +:+ "@" +:+ version.

Definition valid_formats : gmap string (list string) :=
  {[ "vega" := ["png"; "svg"]; "vega-lite" := ["png"; "svg"; "vega"] ]}.

(** [PyppeteerSaver]; the attributes are set by the base class from the
    constructor's arguments.  [_embed_options] is the address of the
    dictionary the saver keeps. *)
Record PyppeteerSaver := {
  _spec : json;
  _mode : string;
  _embed_options : nat;
  _package_versions : gmap string string;
}.

(** The statements of [_extract] from [launch] to [browser.close()]; the
    value is the payload [result] that the page sent back.
    [page.evaluate(EXTRACT_CODE, spec, opt, fmt)] is the [evaluate] call of
    the host. *)
Definition evaluate_page (self : PyppeteerSaver) (fmt : string) : M W (gmap string json) :=
  browser ← host_call BrowserLaunch launch;
  page ← host_call (BrowserNewPage browser) (newPage browser);
  host_call (PageSetContent page) (setContent page);;
  for_each ["vega"; "vega-lite"; "vega-embed"] (λ package,
    version ← getitem (_package_versions self) package;
    let url := CDN_URL package version in
    host_call (PageAddScriptTag page url) (addScriptTag page url));;
  opt ← dict_copy (_embed_options self);
  dict_setitem opt "mode" (JStr (_mode self));;
  opt_entries ← dict_read opt;
  result ← host_call (PageEvaluate page (_spec self) opt_entries fmt)
                     (evaluate page (_spec self) opt_entries fmt);
  host_call (PageClose page) (page_close page);;
  host_call (BrowserClose browser) (browser_close browser);;
  mret result.

(** [_extract]: the round trip above, then its last three lines. *)
Definition _extract (self : PyppeteerSaver) (fmt : string) : M W json :=
  result ← evaluate_page self fmt;
  if decide ("error" ∈ dom result) then
    e ← getitem result "error"; raise (JavascriptError e)
  else getitem result "result".

(** [asyncio.run] runs the coroutine to completion, so the call is
    sequential. *)
Definition _serialize (self : PyppeteerSaver) (fmt content_type : string) : M W content :=
  out ← _extract self fmt;
  if decide (fmt = "png") then
    match out with
    | JStr s =>
        match split_once "," s !! 1%nat with
        | Some data => b ← lift (b64decode (str_encode data)); mret (CBytes b)
        | None => raise IndexError
        end
    | _ => raise AssertionError
    end
  else if decide (fmt = "svg") then mret (CVal out)
  else if decide (fmt = "vega") then mret (CVal out)
  else raise (ValueError ("Unrecognized format: " +:+ fmt)).

(** The formats the saver knows of: the ones listed under some mode. *)
Definition recognized (fmt : string) : Prop :=
  ∃ mode fmts, valid_formats !! mode = Some fmts ∧ fmt ∈ fmts.

(** Modelled from the spec: the request check of [produce_mimebundle] in the
    [Saver] base class, whose file is not among the sources.  Section 7 of
    the specification: "Invalid request error: incompatible mode/format
    combination, or an unrecognized format string -- fatal, raised before
    any external process is invoked"; the legal pairs of this saver are the
    ones its [valid_formats] table declares. *)
Definition check_request (self : PyppeteerSaver) (fmt : string) : M W unit :=
  if decide (fmt ∈ default [] (valid_formats !! _mode self)) then mret tt
  else raise (ValueError ("invalid fmt=" +:+ fmt)).

(** Modelled from the spec: the MIME type under which [produce_mimebundle]
    files the content, "versioned using the major version of the
    installed/pinned grammar library". *)
Definition mimetype (self : PyppeteerSaver) (fmt : string) : string :=
  if decide (fmt = "png") then "image/png"
  else if decide (fmt = "svg") then "image/svg+xml"
  else if decide (fmt = "pdf") then "application/pdf"
  else if decide (fmt = "vega") then
    "application/vnd.vega.v"
      +:+ major (default EmptyString (_package_versions self !! "vega")) +:+ "+json"
  else
    "application/vnd.vegalite.v"
      +:+ major (default EmptyString (_package_versions self !! "vega-lite")) +:+ "+json".

(** Modelled from the spec: [produce_mimebundle(format)] of the [Saver]
    contract for this saver: the request is checked, then the content is
    produced by [_serialize] and filed under its MIME type. *)
Definition produce_mimebundle (self : PyppeteerSaver) (fmt : string) : M W Mimebundle :=
  check_request self fmt;;
  out ← _serialize self fmt "mimebundle";
  mret {[ mimetype self fmt := out ]}.

End Defs.
End Pyppeteer.

(** * The documented MIME types *)

(** Modelled from the spec: the major version of a version string, the
    part before its first dot, or all of it if it has no dot. *)
Definition is_major (version m : string) : Prop :=
  has_char "." m = false ∧ (version = m ∨ ∃ rest, version = m +:+ "." +:+ rest).

(** Modelled from the spec: the MIME type documented for each format,
    "image/png for png, image/svg+xml for svg, application/pdf for pdf,
    application/vnd.vega.v{major}+json for vega,
    application/vnd.vegalite.v{major}+json for vega-lite", with the major
    versions of the vega and vega-lite libraries [vega] and [vegalite]. *)
Inductive documented (vega vegalite : string) : string → string → Prop :=
| documented_png : documented vega vegalite "png" "image/png"
| documented_svg : documented vega vegalite "svg" "image/svg+xml"
| documented_pdf : documented vega vegalite "pdf" "application/pdf"
| documented_vega m :
    is_major vega m →
    documented vega vegalite "vega" ("application/vnd.vega.v" +:+ m +:+ "+json")
| documented_vegalite m :
    is_major vegalite m →
    documented vega vegalite "vega-lite" ("application/vnd.vegalite.v" +:+ m +:+ "+json").

(** * The constructor of the browser saver *)

Module Init.
Section Defs.
Context {W : Type}.

(** [{}]: a new, empty dictionary. *)
Definition dict_new : M W nat := λ st,
  let l := fresh (dom (heap st)) in
  (Ok l, set_heap (<[l := ∅]> (heap st)) st).

(** [d.setdefault(k, v)], for its effect: the entry is written only if the
    key is absent. *)
Definition dict_setdefault (l : nat) (k : string) (v : json) : M W unit := λ st,
  match heap st !! l with
  | Some d =>
      match d !! k with
      | Some _ => (Ok tt, st)
      | None => (Ok tt, set_heap (<[l := <[k := v]> d]> (heap st)) st)
      end
  | None => (Raise not_a_dict, st)
  end.

(** [embed_options or {}]: [None] and the empty dictionary are false, so
    both give a new dictionary; any other dictionary is itself the value. *)
Definition or_new_dict (embed_options : option nat) : M W nat := λ st,
  match embed_options with
  | None => dict_new st
  | Some l =>
      match heap st !! l with
      | Some d => if decide (size d = 0) then dict_new st else (Ok l, st)
      | None => (Raise not_a_dict, st)
      end
  end.

(** [v == 1] in Python, on the values of this model ([True == 1] holds). *)
Definition equals_one (v : json) : bool :=
  match v with
  | JNum 1 => true
  | JBool true => true
  | _ => false
  end.

(** [PyppeteerSaver.__init__], up to the call of the base constructor: the
    value is the [embed_options] argument which that call is given.  The
    other arguments are handed over as they came. *)
Definition __init__ (embed_options : option nat) (scale_factor : json)
    : M W (option nat) :=
  if equals_one scale_factor then mret embed_options
  else
    embed_options ← or_new_dict embed_options;
    dict_setdefault embed_options "scaleFactor" scale_factor;;
    mret (Some embed_options).

End Defs.
End Init.

(** * The script evaluated in the page: [EXTRACT_CODE] *)

Module Page.

(** The JavaScript libraries the page has loaded.  A call either gives its
    value or throws (or rejects); what it throws is kept as the string
    [toString()] makes of it.  [compile spec] is [vegaLite.compile(spec).spec]. *)
Class Libs := {
  view : Type;
  canvas : Type;
  compile : json → string + json;
  vegaEmbed : json → gmap string json → string + view;
  toCanvas : view → json → string + canvas;
  toDataURL : canvas → string + string;
  toSVG : view → json → string + string;
}.

Section Defs.
Context {libs : Libs}.

(** The values JavaScript takes for false. *)
Definition falsy (v : json) : bool :=
  match v with
  | JNull => true
  | JBool false => true
  | JNum 0 => true
  | JStr EmptyString => true
  | _ => false
  end.

(** [embedOpt.scaleFactor || 1] *)
Definition scaleFactor_or_1 (embedOpt : gmap string json) : json :=
  match embedOpt !! "scaleFactor" with
  | Some v => if falsy v then JNum 1 else v
  | None => JNum 1
  end.

(** [embedOpt.mode === "vega-lite"] *)
Definition mode_is_vegalite (embedOpt : gmap string json) : bool :=
  match embedOpt !! "mode" with
  | Some (JStr s) => bool_decide (s = "vega-lite")
  | _ => false
  end.

Definition error_payload (err : string) : gmap string json := {[ "error" := JStr err ]}.

Definition result_payload (v : json) : gmap string json := {[ "result" := v ]}.

(** The object the script resolves to.  Every [catch] of the script turns
    what was thrown into [{error: err.toString()}]. *)
Definition EXTRACT_CODE (spec : json) (embedOpt : gmap string json)
    (format : string) : gmap string json :=
  if decide (format = "vega") then
    if mode_is_vegalite embedOpt then
      match compile spec with
      | inl error => error_payload error
      | inr compiled => result_payload compiled
      end
    else result_payload spec
  else
    match vegaEmbed spec embedOpt with
    | inl err => error_payload err
    | inr result =>
        if decide (format = "png") then
          match toCanvas result (scaleFactor_or_1 embedOpt) with
          | inl err => error_payload err
          | inr canvas =>
              match toDataURL canvas with
              | inl err => error_payload err
              | inr url => result_payload (JStr url)
              end
          end
        else if decide (format = "svg") then
          match toSVG result (scaleFactor_or_1 embedOpt) with
          | inl err => error_payload err
          | inr svg => result_payload (JStr svg)
          end
        else error_payload ("Unrecognized format: " +:+ format)
    end.

End Defs.
End Page.

(** * What the traces are compared with *)

(** The query [npm root], and the run of a converter. *)
Definition is_query (ev : event) : bool :=
  match ev with Spawn _ None => true | _ => false end.

Definition is_convert (ev : event) : bool :=
  match ev with Spawn _ (Some _) => true | _ => false end.

Definition count (p : event → bool) (evs : list event) : nat :=
  length (filter (λ ev, p ev = true) evs).

(** The trace has grown by at most [q] queries and [c] conversions, and by
    nothing else. *)
Definition spawned {W} (q c : nat) : relation (state W) := λ st st',
  ∃ evs, trace st' = trace st ++ evs
         ∧ Forall (λ ev, is_query ev = true ∨ is_convert ev = true) evs
         ∧ count is_query evs ≤ q ∧ count is_convert evs ≤ c.

(** A configuration error or the failure of a library or a tool. *)
Definition tool_error (e : exn) : Prop :=
  (∃ msg, e = RuntimeError msg) ∨ (∃ err, e = LibraryError err).

(** Every exception the computation raises satisfies [P]. *)
Definition raises_only {W A} (P : exn → Prop) (m : M W A) : Prop :=
  ∀ st e st', m st = (Raise e, st') → P e.

(** The result of looking for a converter that is not there: the error
    that names the command, the path tried and how to install it, in the
    state the look-up was made in. *)
Definition not_installed {W A} (self : Node._NodeCommands) (name path : string)
    (st : state W) : outcome A * state W :=
  (Raise (RuntimeError
            ("Cannot find " +:+ name +:+ " command: tried " +:+ path +:+ nl
             +:+ (if Node._global self
                  then "Install with npm install -g vega-lite vega-cli"
                  else "Install with npm install vega-lite vega-cli"))),
   st).

(** The state after the run of a converter that left the world [w']. *)
Definition after_run {W} (st : state W) (path : string) (input : bytes) (w' : W)
    : state W :=
  State w' (trace st ++ [Spawn [path] (Some input)]) (heap st) (npm_root_cache st).

(** The result of a converter that exits with an error: the error, in the
    state after the run. *)
Definition tool_failed {W A} (path : string) (input : bytes) (e : lib_error)
    (w' : W) (st : state W) : outcome A * state W :=
  (Raise (LibraryError e), after_run st path input w').

(** A bundle around the value of a computation, if it has one. *)
Definition bundled {W A} (key : string) (wrap : A → content)
    (r : outcome A * state W) : outcome Mimebundle * state W :=
  match r with
  | (Ok a, st) => (Ok {[ key := wrap a ]}, st)
  | (Raise e, st) => (Raise e, st)
  end.

(** What a converter call has in common with the others: it fails only
    with a tool error; it runs at most the query and one conversion, and
    no query if the root is in the cache; and when it returns, the root is
    in the cache. *)
Definition well_behaved {W A} (self : Node._NodeCommands) (m : M W A) : Prop :=
  ∀ st,
    (∀ e, (m st).1 = Raise e → tool_error e) ∧
    spawned 1 1 st (m st).2 ∧
    (is_Some (cache_lookup (Node.oid self) st) → spawned 0 1 st (m st).2) ∧
    (∀ a, (m st).1 = Ok a → is_Some (cache_lookup (Node.oid self) (m st).2)).

(** The calls of a whole browser session of [_extract], in order. *)
Definition session (self : Pyppeteer.PyppeteerSaver) (fmt : string)
    (browser page : nat) (opt : gmap string json) : list event :=
  [BrowserLaunch; BrowserNewPage browser; PageSetContent page]
  ++ ((λ package,
         PageAddScriptTag page
           (Pyppeteer.CDN_URL package
              (default EmptyString (Pyppeteer._package_versions self !! package))))
      <$> ["vega"; "vega-lite"; "vega-embed"])
  ++ [PageEvaluate page (Pyppeteer._spec self) opt fmt; PageClose page; BrowserClose browser].

(** Run from [st], the computation makes the calls of [full], in order,
    and nothing else; it may stop early, but not if it returns. *)
Definition follows {W A} (m : M W A) (st : state W) (full : list event) : Prop :=
  ∃ evs,
    trace (m st).2 = trace st ++ evs ∧
    evs `prefix_of` full ∧
    (∀ a, (m st).1 = Ok a → evs = full).

Section Session.
Context {W : Type} {host : Host W}.

(** The browser and the page a session started in [st] gets, 0 if it gets
    none, and the options its script is given. *)
Definition session_browser (st : state W) : nat :=
  match launch (world st) with
  | (inr browser, _) => browser
  | (inl _, _) => 0
  end.

Definition session_page (st : state W) : nat :=
  match launch (world st) with
  | (inr browser, w) =>
      match newPage browser w with
      | (inr page, _) => page
      | (inl _, _) => 0
      end
  | (inl _, _) => 0
  end.

Definition session_options (self : Pyppeteer.PyppeteerSaver) (st : state W)
    : gmap string json :=
  <["mode" := JStr (Pyppeteer._mode self)]>
    (default ∅ (heap st !! Pyppeteer._embed_options self)).

End Session.

(** * A concrete library and world to run the savers in *)

Module Fixture.

Definition b64_value (b : byte) : option N :=
  let n := Byte.to_N b in
  if (65 <=? n)%N && (n <=? 90)%N then Some (n - 65)%N
  else if (97 <=? n)%N && (n <=? 122)%N then Some (n - 71)%N
  else if (48 <=? n)%N && (n <=? 57)%N then Some (n + 4)%N
  else if (n =? 43)%N then Some 62%N
  else if (n =? 47)%N then Some 63%N
  else None.

Definition to_byte (n : N) : byte := default x00 (Byte.of_N (n mod 256)%N).

Definition padding : lib_error := LibError "binascii.Error" "Incorrect padding".

(** [binascii.a2b_base64], which [base64.b64decode] calls: characters
    outside the alphabet are skipped; a data character fills the next of
    four positions; padding ends the input once, from the third position
    on, it completes the group, and counts for nothing before; at the end a
    group left open is an error. *)
Definition bad_length (n : nat) : lib_error :=
  LibError "binascii.Error"
    ("Invalid base64-encoded string: number of data characters ("
     +:+ pretty (n / 3 * 4 + 1) +:+ ") cannot be 1 more than a multiple of 4").

Fixpoint a2b_base64 (l : bytes) (quad_pos : nat) (leftchar : N) (pads : nat)
    (out : bytes) : lib_error + bytes :=
  match l with
  | [] =>
      match quad_pos with
      | 0 => inr out
      | 1 => inl (bad_length (length out))
      | _ => inl padding
      end
  | c :: rest =>
      if decide (c = x3d) then
        if decide (2 ≤ quad_pos) then
          if decide (4 ≤ quad_pos + (pads + 1)) then inr out
          else a2b_base64 rest quad_pos leftchar (pads + 1) out
        else a2b_base64 rest quad_pos leftchar pads out
      else
        match b64_value c with
        | None => a2b_base64 rest quad_pos leftchar pads out
        | Some v =>
            match quad_pos with
            | 0 => a2b_base64 rest 1 v 0 out
            | 1 => a2b_base64 rest 2 (v mod 16) 0 (out ++ [to_byte (leftchar * 4 + v / 16)])
            | 2 => a2b_base64 rest 3 (v mod 4) 0 (out ++ [to_byte (leftchar * 16 + v / 4)])
            | _ => a2b_base64 rest 0 0 0 (out ++ [to_byte (leftchar * 64 + v)])
            end
        end
  end.

Definition b64_decode (l : bytes) : lib_error + bytes := a2b_base64 l 0 0 0 [].

Definition dumps (j : json) : string :=
  match j with
  | JObj _ => "{}"
  | JArr _ => "[]"
  | JStr s => s
  | _ => "null"
  end.

Definition loads (b : bytes) : lib_error + json :=
  if decide (b = String.list_byte_of_string "{}") then inr (JObj ∅)
  else inl (LibError "JSONDecodeError" "Expecting value").

#[export] Instance lib : PyLib := {|
  json_dumps := dumps;
  str_encode := String.list_byte_of_string;
  json_loads := loads;
  bytes_decode := λ b, inr (String.string_of_list_byte b);
  b64decode := b64_decode;
  VEGA_VERSION := "5.21.0";
  VEGALITE_VERSION := "4.17.0";
|}.

(** The world: what [npm root] prints, which directories and files exist,
    and the error the page reports, if it is made to fail. *)
Record world := World {
  npm_stdout : string;
  directories : list string;
  files : list string;
  page_error : option string;
}.

Definition called_process_error : lib_error :=
  LibError "CalledProcessError" "returned non-zero exit status 1".

Definition tool_output (path : string) : lib_error + bytes :=
  if String.eqb path "/usr/lib/node_modules/vega-lite/bin/vl2vg" then
    inr (String.list_byte_of_string "{}")
  else if String.eqb path "/usr/lib/node_modules/vega-cli/bin/vg2png" then
    inr [x89; x50; x4e; x47]
  else if String.eqb path "/usr/lib/node_modules/vega-cli/bin/vg2svg" then
    inr (String.list_byte_of_string "<svg></svg>")
  else if String.eqb path "/usr/lib/node_modules/vega-cli/bin/vg2pdf" then
    inr (String.list_byte_of_string "%PDF-1.5")
  else inl called_process_error.

Definition run (cmd : list string) (w : world) : lib_error + bytes :=
  match cmd with
  | [path] =>
      if bool_decide (path ∈ files w) then tool_output path
      else if bool_decide (path ∈ directories w) then inl (LibError "PermissionError" path)
      else inl (LibError "FileNotFoundError" path)
  | _ => inl called_process_error
  end.

(** What the page answers: the spec itself for "vega", a data URL for
    "png", markup for "svg", and an error for anything else. *)
Definition page_answer (spec : json) (fmt : string) (w : world) : gmap string json :=
  match page_error w with
  | Some msg => {[ "error" := JStr msg ]}
  | None =>
      if String.eqb fmt "vega" then {[ "result" := spec ]}
      else if String.eqb fmt "png" then
        {[ "result" := JStr "data:image/png;base64,iVBORw==" ]}
      else if String.eqb fmt "svg" then {[ "result" := JStr "<svg></svg>" ]}
      else {[ "error" := JStr ("Unrecognized format: " +:+ fmt) ]}
  end.

#[export] Instance host : Host world := {|
  check_output_text := λ cmd w,
    match cmd with
    | "npm" :: "root" :: _ => (inr (npm_stdout w), w)
    | _ => (inl called_process_error, w)
    end;
  check_output := λ cmd _ w, (run cmd w, w);
  isdir := λ p w, bool_decide (p ∈ directories w);
  path_exists := λ p w, bool_decide (p ∈ directories w ∨ p ∈ files w);
  launch := λ w, (inr 1%nat, w);
  newPage := λ _ w, (inr 2%nat, w);
  setContent := λ _ w, (inr tt, w);
  addScriptTag := λ _ _ w, (inr tt, w);
  evaluate := λ _ spec _ fmt w, (inr (page_answer spec fmt w), w);
  page_close := λ _ w, (inr tt, w);
  browser_close := λ _ w, (inr tt, w);
|}.

(** A machine with the converters installed globally. *)
Definition installed : world := {|
  npm_stdout := "/usr/lib/node_modules" +:+ nl;
  directories := ["/usr/lib/node_modules"];
  files := ["/usr/lib/node_modules/vega-lite/bin/vl2vg";
            "/usr/lib/node_modules/vega-cli/bin/vg2png";
            "/usr/lib/node_modules/vega-cli/bin/vg2svg";
            "/usr/lib/node_modules/vega-cli/bin/vg2pdf"];
  page_error := None;
|}.

(** A machine on which [npm root] names a directory that is not there. *)
Definition no_root : world := {|
  npm_stdout := "/opt/npm/lib/node_modules" +:+ nl;
  directories := [];
  files := [];
  page_error := None;
|}.

(** A browser whose page reports a compile error. *)
Definition failing_page : world := {|
  npm_stdout := npm_stdout installed;
  directories := directories installed;
  files := files installed;
  page_error := Some "Error: Invalid specification";
|}.

Definition chart : json := JObj {[ "mark" := JStr "bar" ]}.

Definition embed_options : gmap string json := {[ "actions" := JBool false ]}.

Definition start (w : world) : state world :=
  State w [] {[ 0%nat := embed_options ]} None.

(** Two instances of [_NodeCommands], and where the converters are. *)
Definition node0 : Node._NodeCommands := Node.NodeCommands 0 true.

Definition node1 : Node._NodeCommands := Node.NodeCommands 1 true.

Definition root0 : string := "/usr/lib/node_modules".

Definition node_saver (mode : string) : Node.NodeSaver :=
  {| Node._node := node0; Node._spec := chart; Node._mode := mode |}.

Definition browser_saver (mode : string) : Pyppeteer.PyppeteerSaver :=
  {| Pyppeteer._spec := chart;
     Pyppeteer._mode := mode;
     Pyppeteer._embed_options := 0%nat;
     Pyppeteer._package_versions :=
       {[ "vega" := "5.21.0"; "vega-lite" := "4.17.0"; "vega-embed" := "6.20.2" ]} |}.

End Fixture.

(** * Further machines, pages and savers *)

Module Scenario.

(** A machine with the root directory, on which no converter is installed. *)
Definition bare : Fixture.world := {|
  Fixture.npm_stdout := Fixture.npm_stdout Fixture.installed;
  Fixture.directories := Fixture.directories Fixture.installed;
  Fixture.files := [];
  Fixture.page_error := None;
|}.

(** A machine on which the converters are installed, but broken: each
    exits with status 1. *)
Definition broken_root : string := "/opt/npm/lib/node_modules".

Definition broken : Fixture.world := {|
  Fixture.npm_stdout := broken_root +:+ nl;
  Fixture.directories := [broken_root];
  Fixture.files := ["/opt/npm/lib/node_modules/vega-lite/bin/vl2vg";
                    "/opt/npm/lib/node_modules/vega-cli/bin/vg2png";
                    "/opt/npm/lib/node_modules/vega-cli/bin/vg2svg";
                    "/opt/npm/lib/node_modules/vega-cli/bin/vg2pdf"];
  Fixture.page_error := None;
|}.

Definition invalid_specification : string := "Error: Invalid specification".

(** Libraries that compile and render any JSON object and reject the rest;
    the canvas gives [url]. *)
Definition libs (url : string) : Page.Libs := {|
  Page.view := unit;
  Page.canvas := unit;
  Page.compile := λ spec,
    match spec with JObj _ => inr spec | _ => inl invalid_specification end;
  Page.vegaEmbed := λ spec _,
    match spec with JObj _ => inr tt | _ => inl invalid_specification end;
  Page.toCanvas := λ _ _, inr tt;
  Page.toDataURL := λ _, inr url;
  Page.toSVG := λ _ _, inr "<svg></svg>";
|}.

(** The fixture's host with a page that answers [answer spec opt fmt]. *)
Definition page_host (answer : json → gmap string json → string → gmap string json)
    : Host Fixture.world := {|
  check_output_text := @check_output_text _ Fixture.host;
  check_output := @check_output _ Fixture.host;
  isdir := @isdir _ Fixture.host;
  path_exists := @path_exists _ Fixture.host;
  launch := @launch _ Fixture.host;
  newPage := @newPage _ Fixture.host;
  setContent := @setContent _ Fixture.host;
  addScriptTag := @addScriptTag _ Fixture.host;
  evaluate := λ _ spec opt fmt w, (inr (answer spec opt fmt), w);
  page_close := @page_close _ Fixture.host;
  browser_close := @browser_close _ Fixture.host;
|}.

(** A host whose page runs the script with the libraries above. *)
Definition script_host (url : string) : Host Fixture.world :=
  page_host (@Page.EXTRACT_CODE (libs url)).

(** The fixture's host with converters that print a usage text. *)
Definition usage_host : Host Fixture.world := {|
  check_output_text := @check_output_text _ Fixture.host;
  check_output := λ _ _ w, (inr (String.list_byte_of_string "usage: vl2vg [options]"), w);
  isdir := @isdir _ Fixture.host;
  path_exists := @path_exists _ Fixture.host;
  launch := @launch _ Fixture.host;
  newPage := @newPage _ Fixture.host;
  setContent := @setContent _ Fixture.host;
  addScriptTag := @addScriptTag _ Fixture.host;
  evaluate := @evaluate _ Fixture.host;
  page_close := @page_close _ Fixture.host;
  browser_close := @browser_close _ Fixture.host;
|}.

(** A saver that has no version for vega-embed. *)
Definition unpinned_saver : Pyppeteer.PyppeteerSaver :=
  {| Pyppeteer._spec := Fixture.chart;
     Pyppeteer._mode := "vega-lite";
     Pyppeteer._embed_options := 0%nat;
     Pyppeteer._package_versions := {[ "vega" := "5.21.0"; "vega-lite" := "4.17.0" ]} |}.

End Scenario.


(** * Properties *)

Section Properties.
Context {lib : PyLib} {W : Type} {host : Host W}.
Implicit Types (st : state W) (fmt mode : string).

(** ** Running computations *)

Lemma bind_run {A B} (m : M W A) (f : A → M W B) st :
  (m ≫= f) st = match m st with
                | (Ok a, st') => f a st'
                | (Raise e, st') => (Raise e, st')
                end.
Proof. reflexivity. Qed.

Lemma bind_ok {A B} (m : M W A) (f : A → M W B) st a st' :
  m st = (Ok a, st') → (m ≫= f) st = f a st'.
Proof. intros E. by rewrite bind_run, E. Qed.

Lemma bind_raise {A B} (m : M W A) (f : A → M W B) st e st' :
  m st = (Raise e, st') → (m ≫= f) st = (Raise e, st').
Proof. intros E. by rewrite bind_run, E. Qed.

(** ** The mode and format guards of [NodeSaver._mimebundle] *)

Lemma mode_known mode :
  mode ∈ ["vega"; "vega-lite"] ↔ mode = "vega" ∨ mode = "vega-lite".
Proof. rewrite !elem_of_cons, elem_of_nil. tauto. Qed.

Lemma format_known fmt :
  fmt ∈ Node.valid_formats ↔
  fmt = "pdf" ∨ fmt = "png" ∨ fmt = "svg" ∨ fmt = "vega" ∨ fmt = "vega-lite".
Proof. unfold Node.valid_formats. rewrite !elem_of_cons, elem_of_nil. tauto. Qed.

(** Settles the first guard of the goal when its condition is decided by
    the hypotheses or is a comparison of literals. *)
Ltac guard_prop :=
  first [ done | discriminate | congruence
        | rewrite mode_known; tauto
        | (intros [? ?]; (discriminate || congruence))
        | (split; (done || congruence))
        | (rewrite !elem_of_cons, elem_of_nil; intuition (discriminate || congruence)) ].

Ltac settle_guard :=
  match goal with
  | |- context [decide ?P] =>
      first [ rewrite (decide_True (P := P)) by guard_prop
            | rewrite (decide_False (P := P)) by guard_prop ]
  end.

Lemma valid_formats_vega :
  Pyppeteer.valid_formats !! "vega" = Some ["png"; "svg"].
Proof. reflexivity. Qed.

Lemma valid_formats_vegalite :
  Pyppeteer.valid_formats !! "vega-lite" = Some ["png"; "svg"; "vega"].
Proof. reflexivity. Qed.

(** C4. With mode "vega-lite" and format "vega-lite" the command-line saver
    returns the spec it was given, untouched, as the only entry of the
    bundle, under the key application/vnd.vegalite.v{major}+json where
    {major} is the part of [alt.VEGALITE_VERSION] before its first dot; no
    conversion runs: the state, and with it the trace, is left as it was. *)
Theorem node_vegalite_passthrough (self : Node.NodeSaver) st :
  Node._mode self = "vega-lite" →
  Node._mimebundle self "vega-lite" st
  = (Ok {[ "application/vnd.vegalite.v" +:+ major VEGALITE_VERSION +:+ "+json"
           := CVal (Node._spec self) ]}, st).
Proof.
  intros Hm. unfold Node._mimebundle. rewrite Hm.
  by repeat settle_guard.
Qed.

(** C9. With mode "vega" and format "vega" the command-line saver returns
    the spec it was given, untouched, as the only entry of the bundle, under
    the key application/vnd.vega.v{major}+json; no converter is run: the
    state, and with it the trace, is left as it was. *)
Theorem node_vega_passthrough (self : Node.NodeSaver) st :
  Node._mode self = "vega" →
  Node._mimebundle self "vega" st
  = (Ok {[ "application/vnd.vega.v" +:+ major VEGA_VERSION +:+ "+json"
           := CVal (Node._spec self) ]}, st).
Proof.
  intros Hm. unfold Node._mimebundle. rewrite Hm.
  by repeat settle_guard.
Qed.

(** C3. Mode "vega" with format "vega-lite" is refused with a [ValueError]
    by the command-line saver ([_mimebundle]) and by the browser saver
    (the request check of [produce_mimebundle]); in both the state after
    the call is the state before it, so nothing was spawned or launched. *)
Theorem vega_to_vegalite_refused
    (ns : Node.NodeSaver) (bs : Pyppeteer.PyppeteerSaver) st :
  Node._mode ns = "vega" →
  Pyppeteer._mode bs = "vega" →
  (∃ msg, Node._mimebundle ns "vega-lite" st = (Raise (ValueError msg), st)) ∧
  (∃ msg, Pyppeteer.produce_mimebundle bs "vega-lite" st = (Raise (ValueError msg), st)).
Proof.
  intros Hn Hb. split.
  - eexists. unfold Node._mimebundle. rewrite Hn.
    by repeat settle_guard.
  - eexists. unfold Pyppeteer.produce_mimebundle, Pyppeteer.check_request.
    rewrite Hb, valid_formats_vega. simpl.
    by repeat settle_guard.
Qed.

(** ** Splitting strings *)

Lemma split_once_at_first sep pre post :
  has_char sep pre = false →
  split_once sep (pre +:+ String sep post) = [pre; post].
Proof.
  induction pre as [|c pre IH]; simpl; intros Hc.
  - by rewrite decide_True.
  - apply orb_false_elim in Hc as [Hc Hpre].
    apply bool_decide_eq_false in Hc.
    rewrite decide_False by done.
    by rewrite (IH Hpre).
Qed.

Lemma split_head sep pre post :
  has_char sep pre = false →
  split sep (pre +:+ String sep post) !! 0%nat = Some pre.
Proof.
  induction pre as [|c pre IH]; simpl; intros Hc.
  - by rewrite decide_True.
  - apply orb_false_elim in Hc as [Hc Hpre].
    apply bool_decide_eq_false in Hc.
    rewrite decide_False by done.
    specialize (IH Hpre).
    destruct (split sep (pre +:+ String sep post)) as [|x xs]; simplify_eq/=; done.
Qed.

Lemma split_head_whole sep s :
  has_char sep s = false → split sep s = [s].
Proof.
  induction s as [|c s IH]; simpl; intros Hc; [done|].
  apply orb_false_elim in Hc as [Hc Hs].
  apply bool_decide_eq_false in Hc.
  rewrite decide_False by done.
  by rewrite (IH Hs).
Qed.

(** The major version is what precedes the first dot of the version. *)
Lemma major_dotted a rest :
  has_char "." a = false → major (a +:+ String "." rest) = a.
Proof. intros Ha. unfold major. by rewrite split_head. Qed.

Lemma major_undotted a : has_char "." a = false → major a = a.
Proof. intros Ha. unfold major. by rewrite split_head_whole. Qed.

(** ** The command-line converters *)

(** C5. Each composite conversion is the chain of [vl2vg] and the vega
    converter for the same target: from any state, [vl2png] on a vega-lite
    spec gives the outcome (the same bytes, or the same exception) and the
    final state that running [vl2vg] and then [vg2png] on its result gives,
    and likewise [vl2pdf] with [vg2pdf] and [vl2svg] with [vg2svg]. *)
Theorem composite_is_chain (self : Node._NodeCommands) (spec : json) st :
  Node.vl2png self spec st = Node.chain self Node.vg2png spec st ∧
  Node.vl2pdf self spec st = Node.chain self Node.vg2pdf spec st ∧
  Node.vl2svg self spec st = Node.chain self Node.vg2svg spec st.
Proof.
  unfold Node.vl2png, Node.vl2pdf, Node.vl2svg, Node.chain.
  rewrite !bind_run.
  by destruct (Node.vl2vg self spec st) as [[vg|e] st1].
Qed.

(** ** The browser saver *)

(** C6. Once the page has answered with a payload: if the payload has an
    "error" entry (in particular a non-empty message), [_extract] raises
    [JavascriptError], the saver's own exception class, carrying exactly
    that entry; if it has no "error" entry, [_extract] returns the payload's
    "result" entry. *)
Theorem extract_payload (self : Pyppeteer.PyppeteerSaver) fmt st
    (result : gmap string json) st' :
  Pyppeteer.evaluate_page self fmt st = (Ok result, st') →
  (∀ msg, result !! "error" = Some msg →
     Pyppeteer._extract self fmt st = (Raise (JavascriptError msg), st')) ∧
  (result !! "error" = None → ∀ v, result !! "result" = Some v →
     Pyppeteer._extract self fmt st = (Ok v, st')).
Proof.
  intros Hpage. unfold Pyppeteer._extract. rewrite (bind_ok _ _ _ _ _ Hpage).
  split.
  - intros msg Hmsg.
    rewrite decide_True by (apply elem_of_dom; eauto).
    unfold getitem. rewrite bind_run, Hmsg. reflexivity.
  - intros Hnone v Hv.
    rewrite decide_False by (by rewrite not_elem_of_dom).
    unfold getitem. by rewrite Hv.
Qed.

(** C7. After [_extract] has returned [out]: for "png", when [out] is a
    string with a comma, [_serialize] returns the base64 decoding of what
    follows the first comma; for "svg" and for "vega" it returns [out]
    itself. *)
Theorem serialize_by_format (self : Pyppeteer.PyppeteerSaver) fmt ct st
    (out : json) st' :
  Pyppeteer._extract self fmt st = (Ok out, st') →
  (fmt = "png" → ∀ pre data b,
     out = JStr (pre +:+ "," +:+ data) →
     has_char "," pre = false →
     b64decode (str_encode data) = inr b →
     Pyppeteer._serialize self fmt ct st = (Ok (CBytes b), st')) ∧
  (fmt = "svg" ∨ fmt = "vega" →
     Pyppeteer._serialize self fmt ct st = (Ok (CVal out), st')).
Proof.
  intros Hout. unfold Pyppeteer._serialize. rewrite (bind_ok _ _ _ _ _ Hout).
  split.
  - intros -> pre data b -> Hpre Hb.
    rewrite decide_True by done.
    change ("," +:+ data) with (String "," data).
    rewrite split_once_at_first by done. simpl.
    rewrite bind_run. unfold lift. by rewrite Hb.
  - intros [-> | ->]; by repeat settle_guard.
Qed.

(** ** What a computation leaves unchanged *)

Section Preserves.
Context (R : relation (state W)) `{!Reflexive R, !Transitive R}.

Lemma preserves_ret {A} (a : A) : preserves R (mret a : M W A).
Proof. intros st. simpl. reflexivity. Qed.

Lemma preserves_raise {A} e : preserves R (raise e : M W A).
Proof. intros st. simpl. reflexivity. Qed.

Lemma preserves_lift {A} (r : lib_error + A) : preserves R (lift r : M W A).
Proof. destruct r; [apply preserves_raise | apply preserves_ret]. Qed.

Lemma preserves_getitem {A} (d : gmap string A) k : preserves R (getitem d k : M W A).
Proof. unfold getitem. destruct (d !! k); [apply preserves_ret | apply preserves_raise]. Qed.

Lemma preserves_query {A} (f : W → A) : preserves R (host_query f).
Proof. intros st. simpl. reflexivity. Qed.

Lemma preserves_bind {A B} (m : M W A) (f : A → M W B) :
  preserves R m → (∀ a, preserves R (f a)) → preserves R (m ≫= f).
Proof.
  intros Hm Hf st. rewrite bind_run. specialize (Hm st).
  destruct (m st) as [[a|e] st1]; simpl in *; [|done].
  etrans; [exact Hm | apply Hf].
Qed.

Lemma preserves_for_each {A} (l : list A) (body : A → M W unit) :
  (∀ x, preserves R (body x)) → preserves R (for_each l body).
Proof.
  intros Hbody. induction l as [|x l IH]; simpl.
  - apply preserves_ret.
  - apply preserves_bind; auto.
Qed.

End Preserves.

#[local] Instance grown_refl P : Reflexive (grown (W:=W) P).
Proof. intros st. exists []. by rewrite app_nil_r. Qed.
#[local] Instance grown_trans P : Transitive (grown (W:=W) P).
Proof.
  intros st1 st2 st3 (evs1 & E1 & F1) (evs2 & E2 & F2).
  exists (evs1 ++ evs2). split.
  - by rewrite E2, E1, app_assoc.
  - by apply Forall_app.
Qed.

Lemma host_call_same_heap {A} ev (f : W → (lib_error + A) * W) :
  preserves same_heap (host_call ev f).
Proof. intros st. unfold host_call. by destruct (f (world st)) as [[e|a] w]. Qed.

Lemma host_call_same_cache {A} ev (f : W → (lib_error + A) * W) :
  preserves same_cache (host_call ev f).
Proof. intros st. unfold host_call. by destruct (f (world st)) as [[e|a] w]. Qed.

Lemma host_call_grown {A} (P : event → Prop) ev (f : W → (lib_error + A) * W) :
  P ev → preserves (grown P) (host_call ev f).
Proof.
  intros HP st. exists [ev]. unfold host_call.
  destruct (f (world st)) as [[e|a] w]; simpl; split; auto.
Qed.

Lemma preserves_seq {A B} (R1 R2 R : relation (state W))
    (m : M W A) (f : A → M W B) :
  (∀ a b, R1 a b → R a b) →
  (∀ a b c, R1 a b → R2 b c → R a c) →
  preserves R1 m → (∀ x, preserves R2 (f x)) → preserves R (m ≫= f).
Proof.
  intros Hsub Hcomp Hm Hf st. rewrite bind_run. specialize (Hm st).
  destruct (m st) as [[a|e] st1]; simpl in *; [|by apply Hsub].
  eapply Hcomp; [exact Hm | apply Hf].
Qed.

(** ** The embed options across [_extract] *)

#[local] Instance quiet_refl : Reflexive (quiet (W:=W)).
Proof. intros st. split; reflexivity. Qed.
#[local] Instance quiet_trans : Transitive (quiet (W:=W)).
Proof.
  intros a b c [H1 G1] [H2 G2]. split; [congruence | by etrans].
Qed.

Lemma host_call_quiet {A} ev (f : W → (lib_error + A) * W) :
  not_evaluate ev → preserves quiet (host_call ev f).
Proof.
  intros Hev st. split; [apply host_call_same_heap | by apply host_call_grown].
Qed.

Lemma not_evaluate_sent l mode h ev : not_evaluate ev → options_sent l mode h ev.
Proof. by destruct ev. Qed.

Lemma quiet_copied l mode (a b : state W) :
  quiet a b → options_copied l mode a b.
Proof.
  intros [Hh (evs & Ht & Hevs)]. split_and!.
  - by rewrite Hh.
  - intros k _. by rewrite Hh.
  - exists evs. split; [done|].
    eapply Forall_impl; [exact Hevs | apply not_evaluate_sent].
Qed.

Lemma quiet_then_copied l mode (a b c : state W) :
  quiet a b → options_copied l mode b c → options_copied l mode a c.
Proof.
  intros [Hh (evs1 & Ht1 & Hevs1)] (Hl & Hk & evs2 & Ht2 & Hevs2).
  rewrite Hh in *. split_and!; [done..|].
  exists (evs1 ++ evs2). split; [by rewrite Ht2, Ht1, app_assoc|].
  apply Forall_app. split; [|done].
  eapply Forall_impl; [exact Hevs1 | apply not_evaluate_sent].
Qed.

Lemma copied_then_quiet l mode (a b c : state W) :
  options_copied l mode a b → quiet b c → options_copied l mode a c.
Proof.
  intros (Hl & Hk & evs1 & Ht1 & Hevs1) [Hh (evs2 & Ht2 & Hevs2)].
  rewrite <- Hh in *. split_and!; [done..|].
  exists (evs1 ++ evs2). split; [by rewrite Ht2, Ht1, app_assoc|].
  apply Forall_app. split; [done|].
  eapply Forall_impl; [exact Hevs2 | apply not_evaluate_sent].
Qed.

(** From the copy of the options to the end of the round trip. *)
Lemma copy_and_evaluate (self : Pyppeteer.PyppeteerSaver) fmt (browser page : nat) :
  preserves (options_copied (Pyppeteer._embed_options self) (Pyppeteer._mode self))
    (opt ← dict_copy (Pyppeteer._embed_options self);
     dict_setitem opt "mode" (JStr (Pyppeteer._mode self));;
     opt_entries ← dict_read opt;
     result ← host_call (PageEvaluate page (Pyppeteer._spec self) opt_entries fmt)
                        (evaluate page (Pyppeteer._spec self) opt_entries fmt);
     host_call (PageClose page) (page_close page);;
     host_call (BrowserClose browser) (browser_close browser);;
     mret result).
Proof.
  set (l := Pyppeteer._embed_options self). set (mode := Pyppeteer._mode self).
  intros st. rewrite bind_run. unfold dict_copy.
  destruct (heap st !! l) as [d|] eqn:Hd; [|by apply quiet_copied].
  set (l' := fresh (dom (heap st))).
  assert (Hfresh : heap st !! l' = None)
    by (apply not_elem_of_dom, is_fresh).
  assert (Hne : l ≠ l') by congruence.
  rewrite bind_run. unfold dict_setitem. simpl. rewrite lookup_insert_eq.
  rewrite bind_run. unfold dict_read. simpl. rewrite lookup_insert_eq.
  rewrite bind_run. unfold host_call at 1. simpl.
  destruct (evaluate page (Pyppeteer._spec self) (<["mode":=JStr mode]> d) fmt (world st))
    as [r w4].
  set (st4 := State w4 _ _ _).
  assert (Hst4 : options_copied l mode st st4).
  { split_and!; simpl.
    - by rewrite !lookup_insert_ne.
    - intros k [x Hk]. rewrite !lookup_insert_ne; congruence.
    - eexists [_]. split; [done|]. constructor; [|done]. simpl. eauto. }
  destruct r as [e|result]; [done|].
  eapply copied_then_quiet; [exact Hst4|].
  assert (Htail : preserves quiet
            (host_call (PageClose page) (page_close page);;
             host_call (BrowserClose browser) (browser_close browser);;
             (mret result : M W (gmap string json)))).
  { apply (preserves_bind quiet); [by apply host_call_quiet|]. intros _.
    apply (preserves_bind quiet); [by apply host_call_quiet|]. intros _.
    apply (preserves_ret quiet). }
  apply (Htail st4).
Qed.

Lemma evaluate_page_copies (self : Pyppeteer.PyppeteerSaver) fmt :
  preserves (options_copied (Pyppeteer._embed_options self) (Pyppeteer._mode self))
    (Pyppeteer.evaluate_page self fmt).
Proof.
  set (R := options_copied _ _).
  assert (Hsub : ∀ a b, quiet a b → R a b) by apply quiet_copied.
  assert (Hcomp : ∀ a b c, quiet a b → R b c → R a c) by apply quiet_then_copied.
  unfold Pyppeteer.evaluate_page.
  apply (preserves_seq quiet R R _ _ Hsub Hcomp); [by apply host_call_quiet|].
  intros browser.
  apply (preserves_seq quiet R R _ _ Hsub Hcomp); [by apply host_call_quiet|].
  intros page.
  apply (preserves_seq quiet R R _ _ Hsub Hcomp); [by apply host_call_quiet|].
  intros _.
  apply (preserves_seq quiet R R _ _ Hsub Hcomp).
  { apply (preserves_for_each quiet). intros package.
    apply (preserves_bind quiet); [apply (preserves_getitem quiet)|].
    intros version. by apply host_call_quiet. }
  intros _. apply copy_and_evaluate.
Qed.

(** C10. Whatever the format and whatever the outcome, [_extract] leaves
    the saver's stored embed options as they were, as it leaves every
    dictionary that existed before the call; and the options the in-page
    script is given, when it is reached, are a copy of the stored ones with
    "mode" set to the saver's mode. *)
Theorem extract_keeps_embed_options (self : Pyppeteer.PyppeteerSaver) fmt st :
  let st' := (Pyppeteer._extract self fmt st).2 in
  heap st' !! Pyppeteer._embed_options self = heap st !! Pyppeteer._embed_options self ∧
  (∀ l, is_Some (heap st !! l) → heap st' !! l = heap st !! l) ∧
  ∃ evs, trace st' = trace st ++ evs ∧
    ∀ page spec opt f, PageEvaluate page spec opt f ∈ evs →
      ∃ d, heap st !! Pyppeteer._embed_options self = Some d ∧
           opt = <["mode" := JStr (Pyppeteer._mode self)]> d.
Proof.
  set (R := options_copied (W:=W) (Pyppeteer._embed_options self) (Pyppeteer._mode self)).
  assert (HR : R st (Pyppeteer._extract self fmt st).2).
  { apply (preserves_seq R quiet R _ _ (λ a b H, H) (copied_then_quiet _ _)).
    - apply evaluate_page_copies.
    - intros result. case_decide.
      + apply (preserves_bind quiet); [apply (preserves_getitem quiet)|].
        intros e. apply (preserves_raise quiet).
      + apply (preserves_getitem quiet). }
  destruct HR as (Hl & Hk & evs & Ht & Hevs). simpl.
  split_and!; [done..|].
  exists evs. split; [done|].
  intros page spec opt f Hin.
  rewrite Forall_forall in Hevs. apply (Hevs _ Hin).
Qed.

(** ** White space *)

Lemma drop_prefix_length p s r :
  drop_prefix p s = Some r → String.length s = String.length p + String.length r.
Proof.
  revert s. induction p as [|a p IH]; intros [|b s]; simpl; try done.
  - by intros [= <-].
  - by intros [= <-].
  - case_decide; [|done]. intros Hr. by rewrite (IH _ Hr).
Qed.

Lemma skip_one_shorter chars s r :
  Forall (λ c, c ≠ EmptyString) chars →
  skip_one chars s = Some r → String.length r < String.length s.
Proof.
  intros Hchars Hskip. unfold skip_one in Hskip.
  apply head_Some_elem_of, list_elem_of_omap in Hskip as (c & Hc & Hdrop).
  rewrite Forall_forall in Hchars. specialize (Hchars c Hc).
  rewrite (drop_prefix_length _ _ _ Hdrop).
  destruct c; [done|]. simpl. lia.
Qed.

Lemma skip_one_empty chars :
  Forall (λ c, c ≠ EmptyString) chars → skip_one chars EmptyString = None.
Proof.
  intros Hchars. destruct (skip_one chars EmptyString) as [r|] eqn:Hskip; [|done].
  apply skip_one_shorter in Hskip; [|done]. simpl in Hskip. lia.
Qed.

(** The steps allowed are enough: what [skip_all] leaves starts with none
    of the characters. *)
Lemma skip_all_done chars n s :
  Forall (λ c, c ≠ EmptyString) chars →
  String.length s ≤ n → skip_one chars (skip_all chars n s) = None.
Proof.
  intros Hchars. revert s. induction n as [|n IH]; intros s Hlen; simpl.
  - destruct s; [by apply skip_one_empty|]. simpl in Hlen. lia.
  - destruct (skip_one chars s) as [s'|] eqn:Hskip; [|done].
    apply IH. apply skip_one_shorter in Hskip; [lia|done].
Qed.

Lemma whitespace_nonempty : Forall (λ c, c ≠ EmptyString) whitespace.
Proof. unfold whitespace. rewrite Forall_fmap. by repeat constructor. Qed.

(** [lstrip] leaves no white space in front, [rstrip] none at the end. *)
Lemma lstrip_done s : skip_one whitespace (lstrip s) = None.
Proof. apply skip_all_done; [apply whitespace_nonempty | done]. Qed.

Lemma rev_app_length s acc :
  String.length (String.rev_app s acc) = String.length s + String.length acc.
Proof.
  revert acc. induction s as [|c s IH]; intros acc; simpl; [done|].
  rewrite IH. simpl. lia.
Qed.

Lemma rev_app_rev_app s a b :
  String.rev_app (String.rev_app s a) b = String.rev_app a (s +:+ b).
Proof.
  revert a. induction s as [|c s IH]; intros a; simpl; [done|]. by rewrite IH.
Qed.

Lemma rev_rev s : String.rev (String.rev s) = s.
Proof.
  unfold String.rev. rewrite rev_app_rev_app.
  change (String.rev_app EmptyString (s +:+ EmptyString)) with (s +:+ EmptyString).
  induction s as [|c s IH]; [done|].
  change (String c (s +:+ EmptyString) = String c s). by rewrite IH.
Qed.

Lemma rstrip_done s :
  skip_one (String.rev <$> whitespace) (String.rev (rstrip s)) = None.
Proof.
  unfold rstrip. rewrite rev_rev.
  apply skip_all_done.
  - unfold whitespace. rewrite !Forall_fmap. by repeat constructor.
  - unfold String.rev. rewrite rev_app_length. simpl. lia.
Qed.

(** ** Root discovery and its cache *)

Lemma cache_lookup_store k v st : cache_lookup k (cache_store k v st) = Some v.
Proof. unfold cache_lookup, cache_store. simpl. by rewrite decide_True. Qed.

Lemma npm_root_hit (self : Node._NodeCommands) st v :
  cache_lookup (Node.oid self) st = Some v → Node.npm_root self st = (Ok v, st).
Proof. intros H. unfold Node.npm_root, lru_cache_1. by rewrite H. Qed.

Lemma npm_root_miss (self : Node._NodeCommands) st :
  cache_lookup (Node.oid self) st = None →
  Node.npm_root self st
  = match Node.npm_root_body self st with
    | (Ok v, st') => (Ok v, cache_store (Node.oid self) v st')
    | (Raise e, st') => (Raise e, st')
    end.
Proof. intros H. unfold Node.npm_root, lru_cache_1. by rewrite H. Qed.

Lemma npm_root_body_run (self : Node._NodeCommands) st :
  Node.npm_root_body self st
  = let '(r, w) := check_output_text (Node.npm_cmd self) (world st) in
    let st1 := State w (trace st ++ [Spawn (Node.npm_cmd self) None])
                     (heap st) (npm_root_cache st) in
    match r with
    | inl e => (Raise (LibraryError e), st1)
    | inr out =>
        if isdir (strip out) w then (Ok (strip out), st1)
        else (Raise (RuntimeError ("npm root not found; got " +:+ strip out)), st1)
    end.
Proof.
  unfold Node.npm_root_body. rewrite bind_run. unfold host_call.
  destruct (check_output_text _ _) as [[e|out] w]; [done|].
  rewrite bind_run. unfold host_query. simpl.
  by destruct (isdir (strip out) w).
Qed.

Lemma npm_root_cached (self : Node._NodeCommands) st v st1 :
  Node.npm_root self st = (Ok v, st1) → cache_lookup (Node.oid self) st1 = Some v.
Proof.
  unfold Node.npm_root, lru_cache_1.
  destruct (cache_lookup (Node.oid self) st) as [v0|] eqn:Hc.
  - intros [= <- <-]. done.
  - destruct (Node.npm_root_body self st) as [[v'|e] st'']; intros [= <- <-].
    apply cache_lookup_store.
Qed.

Lemma npm_root_missing (self : Node._NodeCommands) st out w' :
  cache_lookup (Node.oid self) st = None →
  check_output_text (Node.npm_cmd self) (world st) = (inr out, w') →
  isdir (strip out) w' = false →
  Node.npm_root self st = Node.root_not_found self out w' st.
Proof.
  intros Hc Hq Hd. rewrite npm_root_miss by done.
  rewrite npm_root_body_run, Hq, Hd. reflexivity.
Qed.

#[local] Instance converters_only_refl v : Reflexive (converters_only (W:=W) v).
Proof. intros st. split; reflexivity. Qed.
#[local] Instance converters_only_trans v : Transitive (converters_only (W:=W) v).
Proof. intros a b c [H1 G1] [H2 G2]. split; [congruence | by etrans]. Qed.

Lemma converters_only_lookup v k st st' :
  converters_only v st st' → cache_lookup k st' = cache_lookup k st.
Proof. intros [Hc _]. unfold cache_lookup. by rewrite Hc. Qed.

Lemma host_call_converter {A} v pkg name (input : bytes)
    (f : W → (lib_error + A) * W) :
  (pkg, name) ∈ [("vega-lite", "vl2vg"); ("vega-cli", "vg2png");
                 ("vega-cli", "vg2pdf"); ("vega-cli", "vg2svg")] →
  preserves (converters_only v)
    (host_call (Spawn [os_path_join v [pkg; "bin"; name]] (Some input)) f).
Proof.
  intros Hin st. split; [apply host_call_same_cache|].
  apply host_call_grown. by exists pkg, name, input.
Qed.

(** With the root in the cache, a converter call is: the existence test,
    then the run of that converter. *)
Lemma converter_only {A} (self : Node._NodeCommands) v st (k : string → M W A) :
  cache_lookup (Node.oid self) st = Some v →
  preserves (converters_only v) (k v) →
  converters_only v st ((Node.npm_root self ≫= k) st).2.
Proof.
  intros Hc Hk. rewrite (bind_ok _ _ _ _ _ (npm_root_hit self st v Hc)). apply Hk.
Qed.

Lemma vl2vg_only (self : Node._NodeCommands) spec v st :
  cache_lookup (Node.oid self) st = Some v →
  converters_only v st (Node.vl2vg self spec st).2.
Proof.
  intros Hc. apply (converter_only self v); [done|].
  apply (preserves_bind (converters_only v)); [apply (preserves_query (converters_only v))|].
  intros e. destruct e; simpl; [|apply (preserves_raise (converters_only v))].
  apply (preserves_bind (converters_only v)).
  - apply (host_call_converter v "vega-lite" "vl2vg"). rewrite !elem_of_cons. tauto.
  - intros out. apply (preserves_lift (converters_only v)).
Qed.

Lemma vg2png_only (self : Node._NodeCommands) spec v st :
  cache_lookup (Node.oid self) st = Some v →
  converters_only v st (Node.vg2png self spec st).2.
Proof.
  intros Hc. apply (converter_only self v); [done|].
  apply (preserves_bind (converters_only v)); [apply (preserves_query (converters_only v))|].
  intros e. destruct e; simpl; [|apply (preserves_raise (converters_only v))].
  apply (host_call_converter v "vega-cli" "vg2png"). rewrite !elem_of_cons. tauto.
Qed.

Lemma vg2pdf_only (self : Node._NodeCommands) spec v st :
  cache_lookup (Node.oid self) st = Some v →
  converters_only v st (Node.vg2pdf self spec st).2.
Proof.
  intros Hc. apply (converter_only self v); [done|].
  apply (preserves_bind (converters_only v)); [apply (preserves_query (converters_only v))|].
  intros e. destruct e; simpl; [|apply (preserves_raise (converters_only v))].
  apply (host_call_converter v "vega-cli" "vg2pdf"). rewrite !elem_of_cons. tauto.
Qed.

Lemma vg2svg_only (self : Node._NodeCommands) spec v st :
  cache_lookup (Node.oid self) st = Some v →
  converters_only v st (Node.vg2svg self spec st).2.
Proof.
  intros Hc. apply (converter_only self v); [done|].
  apply (preserves_bind (converters_only v)); [apply (preserves_query (converters_only v))|].
  intros e. destruct e; simpl; [|apply (preserves_raise (converters_only v))].
  apply (preserves_bind (converters_only v)).
  - apply (host_call_converter v "vega-cli" "vg2svg"). rewrite !elem_of_cons. tauto.
  - intros out. apply (preserves_lift (converters_only v)).
Qed.

(** Sequencing two computations that each need the root in the cache. *)
Lemma converters_only_bind {A B} k v (m : M W A) (f : A → M W B) st :
  cache_lookup k st = Some v →
  converters_only v st (m st).2 →
  (∀ a st1, cache_lookup k st1 = Some v → converters_only v st1 (f a st1).2) →
  converters_only v st ((m ≫= f) st).2.
Proof.
  intros Hc Hm Hf. rewrite bind_run.
  destruct (m st) as [[a|e] st1]; simpl in *; [|done].
  etrans; [exact Hm|]. apply Hf. by rewrite (converters_only_lookup _ _ _ _ Hm).
Qed.

Lemma mimebundle_only (self : Node.NodeSaver) fmt v st :
  cache_lookup (Node.oid (Node._node self)) st = Some v →
  converters_only v st (Node._mimebundle self fmt st).2.
Proof.
  intros Hc. set (k := Node.oid (Node._node self)) in *.
  assert (Hconv : ∀ spec st1, cache_lookup k st1 = Some v →
    converters_only v st1 (Node.vg2png (Node._node self) spec st1).2 ∧
    converters_only v st1 (Node.vg2svg (Node._node self) spec st1).2 ∧
    converters_only v st1 (Node.vg2pdf (Node._node self) spec st1).2).
  { intros spec st1 Hc1. split_and!;
      [by eapply vg2png_only | by eapply vg2svg_only | by eapply vg2pdf_only]. }
  unfold Node._mimebundle.
  repeat case_decide; try reflexivity.
  all: apply (converters_only_bind k v);
    [done | first [by eapply vl2vg_only | reflexivity] |].
  all: intros spec st1 Hc1; try reflexivity.
  all: apply (converters_only_bind k v); [done | apply Hconv; done | intros; reflexivity].
Qed.

(** The composite conversions need the root in the cache twice. *)
Lemma vl2png_only (self : Node._NodeCommands) spec v st :
  cache_lookup (Node.oid self) st = Some v →
  converters_only v st (Node.vl2png self spec st).2.
Proof.
  intros Hc. apply (converters_only_bind (Node.oid self) v); [done | by eapply vl2vg_only|].
  intros vg st1 Hc1. by eapply vg2png_only.
Qed.

Lemma vl2pdf_only (self : Node._NodeCommands) spec v st :
  cache_lookup (Node.oid self) st = Some v →
  converters_only v st (Node.vl2pdf self spec st).2.
Proof.
  intros Hc. apply (converters_only_bind (Node.oid self) v); [done | by eapply vl2vg_only|].
  intros vg st1 Hc1. by eapply vg2pdf_only.
Qed.

Lemma vl2svg_only (self : Node._NodeCommands) spec v st :
  cache_lookup (Node.oid self) st = Some v →
  converters_only v st (Node.vl2svg self spec st).2.
Proof.
  intros Hc. apply (converters_only_bind (Node.oid self) v); [done | by eapply vl2vg_only|].
  intros vg st1 Hc1. by eapply vg2svg_only.
Qed.

(** However the instance is used, the entry stays and only converters
    under the cached root are run. *)
Lemma uses_converters_only (self : Node._NodeCommands) v st st' :
  cache_lookup (Node.oid self) st = Some v → Node.uses self st st' →
  converters_only v st st'.
Proof.
  intros Hc Huses.
  induction Huses as [|st' _ IH|st' spec _ IH|st' spec _ IH|st' spec _ IH|st' spec _ IH
                      |st' spec _ IH|st' spec _ IH|st' spec _ IH|st' saver fmt Hnode _ IH];
    [reflexivity|..];
    (assert (Hc' : cache_lookup (Node.oid self) st' = Some v)
       by (by rewrite (converters_only_lookup _ _ _ _ IH)));
    (etrans; [exact IH|]).
  - by rewrite (npm_root_hit self st' v Hc').
  - by eapply vl2vg_only.
  - by eapply vg2png_only.
  - by eapply vg2pdf_only.
  - by eapply vg2svg_only.
  - by eapply vl2png_only.
  - by eapply vl2pdf_only.
  - by eapply vl2svg_only.
  - subst self. by eapply mimebundle_only.
Qed.

(** A read that misses runs the query, once, whatever comes of it. *)
Lemma npm_root_miss_trace (self : Node._NodeCommands) st :
  cache_lookup (Node.oid self) st = None →
  trace (Node.npm_root self st).2 = trace st ++ [Spawn (Node.npm_cmd self) None].
Proof.
  intros Hmiss. rewrite npm_root_miss by done. rewrite npm_root_body_run.
  destruct (check_output_text _ _) as [[err|out] w]; [done|].
  by destruct (isdir _ _).
Qed.

(** A read that fails leaves the cache as it was. *)
Lemma npm_root_raise_cache (self : Node._NodeCommands) st e st' :
  Node.npm_root self st = (Raise e, st') → npm_root_cache st' = npm_root_cache st.
Proof.
  unfold Node.npm_root, lru_cache_1.
  destruct (cache_lookup _ _); [done|].
  rewrite npm_root_body_run.
  destruct (check_output_text _ _) as [[err|out] w]; [by intros [= _ <-]|].
  by destruct (isdir _ _); intros [= _ <-].
Qed.

(** A discovery by another instance takes the slot. *)
Lemma npm_root_evicts (self other : Node._NodeCommands) st v w st' :
  Node.oid other ≠ Node.oid self →
  cache_lookup (Node.oid self) st = Some v →
  Node.npm_root other st = (Ok w, st') →
  cache_lookup (Node.oid self) st' = None.
Proof.
  intros Hne Hc. unfold Node.npm_root, lru_cache_1.
  assert (Hmiss : cache_lookup (Node.oid other) st = None).
  { unfold cache_lookup in *. destruct (npm_root_cache st) as [[k x]|]; [|done].
    case_decide; [|done]. subst k. by rewrite decide_False. }
  rewrite Hmiss.
  destruct (Node.npm_root_body other st) as [[w'|e] st1]; [|done].
  intros [= _ <-]. unfold cache_lookup, cache_store. simpl.
  by rewrite decide_False.
Qed.

(** C8 (amended). On first use by an instance, when the path that the
    [npm root] query prints, stripped of white space, is not an existing
    directory, [npm_root] raises the configuration error ([RuntimeError]),
    and so does every converter, with the query as the only process run: no
    conversion is attempted.  When discovery succeeds its result was
    computed by one run of the query and is stored in the cache, whose one
    slot all instances share.  However the instance is used from then on
    (reads of the root, converters, composite conversions, savers built on
    it), the entry stays, a read returns it and runs nothing, and nothing
    but conversions is run.  A discovery by another instance that fails
    leaves the entry; one that succeeds takes the slot, and the first
    instance then runs the query again. *)
Theorem npm_root_discovery (self : Node._NodeCommands) st :
  (∀ out w',
     cache_lookup (Node.oid self) st = None →
     check_output_text (Node.npm_cmd self) (world st) = (inr out, w') →
     isdir (strip out) w' = false →
     Node.npm_root self st = Node.root_not_found self out w' st ∧
     ∀ spec,
       Node.vl2vg self spec st = Node.root_not_found self out w' st ∧
       Node.vg2png self spec st = Node.root_not_found self out w' st ∧
       Node.vg2pdf self spec st = Node.root_not_found self out w' st ∧
       Node.vg2svg self spec st = Node.root_not_found self out w' st) ∧
  (∀ v st1,
     Node.npm_root self st = (Ok v, st1) →
     (cache_lookup (Node.oid self) st = None →
      trace st1 = trace st ++ [Spawn (Node.npm_cmd self) None]) ∧
     cache_lookup (Node.oid self) st1 = Some v ∧
     ∀ st2,
       Node.uses self st1 st2 →
       cache_lookup (Node.oid self) st2 = Some v ∧
       Node.npm_root self st2 = (Ok v, st2) ∧
       (∃ evs, trace st2 = trace st1 ++ evs ∧ Forall (converter_run v) evs) ∧
       (∀ (other : Node._NodeCommands) e st3,
          Node.npm_root other st2 = (Raise e, st3) →
          cache_lookup (Node.oid self) st3 = Some v) ∧
       (∀ (other : Node._NodeCommands) w st3,
          Node.oid other ≠ Node.oid self →
          Node.npm_root other st2 = (Ok w, st3) →
          cache_lookup (Node.oid self) st3 = None ∧
          trace (Node.npm_root self st3).2
          = trace st3 ++ [Spawn (Node.npm_cmd self) None])).
Proof.
  split.
  - intros out w' Hc Hq Hd.
    pose proof (npm_root_missing self st out w' Hc Hq Hd) as Hroot.
    split; [done|]. intros spec.
    unfold Node.vl2vg, Node.vg2png, Node.vg2pdf, Node.vg2svg.
    by rewrite !(bind_raise _ _ _ _ _ Hroot).
  - intros v st1 Hok.
    assert (Hc1 : cache_lookup (Node.oid self) st1 = Some v) by (by eapply npm_root_cached).
    split_and!; [|done|].
    { intros Hmiss. pose proof (npm_root_miss_trace self st Hmiss) as Ht.
      by rewrite Hok in Ht. }
    intros st2 Huses.
    pose proof (uses_converters_only self v st1 st2 Hc1 Huses) as Hkept.
    assert (Hc2 : cache_lookup (Node.oid self) st2 = Some v)
      by (by rewrite (converters_only_lookup _ _ _ _ Hkept)).
    split_and!; [done | by apply npm_root_hit | apply Hkept | |].
    + intros other e st3 Hfail.
      unfold cache_lookup in *. by rewrite (npm_root_raise_cache _ _ _ _ Hfail).
    + intros other w st3 Hne Hfound.
      assert (Hgone : cache_lookup (Node.oid self) st3 = None)
        by (by eapply npm_root_evicts).
      split; [done|]. by apply npm_root_miss_trace.
Qed.

(** ** The command-line saver on a working tool chain *)

Section Working.
Context (self : Node._NodeCommands) (root : string) (good : W → Prop).
Context (Hworking : Node.working self root good).

Lemma npm_root_returns st :
  Node.ready self root good st →
  ∃ st', Node.npm_root self st = (Ok root, st') ∧ Node.ready self root good st'.
Proof.
  intros [Hgood [Hc|Hc]].
  - destruct (Node.npm_reports _ _ _ Hworking _ Hgood) as (out & w' & Hq & Hout & Hgood').
    rewrite npm_root_miss, npm_root_body_run, Hq, Hout by done.
    rewrite (Node.root_is_dir _ _ _ Hworking _ Hgood').
    eexists. split; [reflexivity|]. split; [done|].
    right. apply cache_lookup_store.
  - exists st. split; [by apply npm_root_hit|]. split; auto.
Qed.

(** A converter that is installed is found and run. *)
Lemma converter_returns pkg name (input : bytes) st :
  (pkg, name) ∈ Node.converters →
  Node.ready self root good st →
  let path := os_path_join root [pkg; "bin"; name] in
  ∃ out w' st',
    Node.npm_root self st = (Ok root, st') ∧
    path_exists path (world st') = true ∧
    good (world st') ∧
    check_output [path] input (world st') = (inr out, w') ∧
    Node.ready self root good
      (State w' (trace st' ++ [Spawn [path] (Some input)]) (heap st') (npm_root_cache st')).
Proof.
  intros Hin Hready path.
  destruct (npm_root_returns st Hready) as (st' & Hroot & [Hgood' Hc']).
  destruct (Node.converter_runs _ _ _ Hworking _ pkg name input Hgood' Hin)
    as (out & w' & Hrun & Hgood'').
  exists out, w', st'. split_and!; try done.
  by apply (Node.converter_exists _ _ _ Hworking).
Qed.

Ltac run_converter pkg name input st Hready :=
  let out := fresh "out" in let w' := fresh "w'" in let st' := fresh "st'" in
  let Hroot := fresh "Hroot" in let Hex := fresh "Hex" in
  let Hgood := fresh "Hgood" in let Hrun := fresh "Hrun" in
  let Hready' := fresh "Hready'" in
  destruct (converter_returns pkg name input st ltac:(unfold Node.converters; rewrite !elem_of_cons; intuition) Hready)
    as (out & w' & st' & Hroot & Hex & Hgood & Hrun & Hready');
  rewrite (bind_ok _ _ _ _ _ Hroot); cbv zeta;
  rewrite bind_run; unfold host_query; cbv beta iota; rewrite Hex;
  cbv beta iota delta [negb];
  try rewrite bind_run; unfold host_call; cbv beta iota zeta; rewrite Hrun.

Lemma vl2vg_returns spec st :
  Node.ready self root good st →
  ∃ j st', Node.vl2vg self spec st = (Ok j, st') ∧ Node.ready self root good st'.
Proof.
  intros Hready. unfold Node.vl2vg.
  run_converter "vega-lite" "vl2vg" (str_encode (json_dumps spec)) st Hready.
  destruct (Node.vl2vg_parses _ _ _ Hworking _ _ _ _ Hgood Hrun) as [j Hj].
  rewrite Hj. simpl. eauto.
Qed.

Lemma vg2png_returns spec st :
  Node.ready self root good st →
  ∃ b st', Node.vg2png self spec st = (Ok b, st') ∧ Node.ready self root good st'.
Proof.
  intros Hready. unfold Node.vg2png.
  run_converter "vega-cli" "vg2png" (str_encode (json_dumps spec)) st Hready.
  eauto.
Qed.

Lemma vg2pdf_returns spec st :
  Node.ready self root good st →
  ∃ b st', Node.vg2pdf self spec st = (Ok b, st') ∧ Node.ready self root good st'.
Proof.
  intros Hready. unfold Node.vg2pdf.
  run_converter "vega-cli" "vg2pdf" (str_encode (json_dumps spec)) st Hready.
  eauto.
Qed.

Lemma vg2svg_returns spec st :
  Node.ready self root good st →
  ∃ s st', Node.vg2svg self spec st = (Ok s, st') ∧ Node.ready self root good st'.
Proof.
  intros Hready. unfold Node.vg2svg.
  run_converter "vega-cli" "vg2svg" (str_encode (json_dumps spec)) st Hready.
  destruct (Node.vg2svg_decodes _ _ _ Hworking _ _ _ _ Hgood Hrun) as [s Hs].
  rewrite Hs. simpl. eauto.
Qed.

End Working.

(** The major version the code computes is the one the specification
    means, and there is no other. *)
Lemma first_dot v :
  has_char "." v = true →
  ∃ a rest, v = a +:+ String "." rest ∧ has_char "." a = false.
Proof.
  induction v as [|c v IH]; simpl; [done|]. intros Hc.
  destruct (decide (c = "."%char)) as [->|Hne].
  - by exists EmptyString, v.
  - rewrite bool_decide_eq_false_2 in Hc by done. simpl in Hc.
    destruct (IH Hc) as (a & rest & -> & Ha).
    exists (String c a), rest. split; [done|]. simpl.
    by rewrite bool_decide_eq_false_2, Ha.
Qed.

Lemma is_major_of_major v : is_major v (major v).
Proof.
  destruct (has_char "." v) eqn:Hv.
  - destruct (first_dot v Hv) as (a & rest & -> & Ha).
    rewrite major_dotted by done. split; [done|]. right. by exists rest.
  - rewrite major_undotted by done. split; [done|]. by left.
Qed.

Lemma is_major_unique v m : is_major v m → m = major v.
Proof.
  intros [Hm [->|[rest ->]]].
  - by rewrite major_undotted.
  - change ("." +:+ rest) with (String "." rest). by rewrite major_dotted.
Qed.

Lemma documented_unique vega vegalite fmt key1 key2 :
  documented vega vegalite fmt key1 → documented vega vegalite fmt key2 → key1 = key2.
Proof.
  intros H1 H2. destruct H1; inversion H2; subst; try done;
    by repeat match goal with
              | H : is_major _ _ |- _ => apply is_major_unique in H; subst
              end.
Qed.

Lemma documented_exists vega vegalite fmt :
  fmt ∈ ["pdf"; "png"; "svg"; "vega"; "vega-lite"] → ∃ key, documented vega vegalite fmt key.
Proof.
  rewrite !elem_of_cons, elem_of_nil. intros H. destruct_or!; subst; try done.
  - eexists. apply documented_pdf.
  - eexists. apply documented_png.
  - eexists. apply documented_svg.
  - eexists. apply documented_vega, is_major_of_major.
  - eexists. apply documented_vegalite, is_major_of_major.
Qed.

(** Whatever the world does, a bundle that [_mimebundle] returns has one
    entry, under the documented MIME type of the format. *)
Lemma mimebundle_ok_singleton (self : Node.NodeSaver) fmt st b st' :
  Node._mimebundle self fmt st = (Ok b, st') →
  ∃ key c, documented VEGA_VERSION VEGALITE_VERSION fmt key ∧ b = {[ key := c ]}.
Proof.
  unfold Node._mimebundle.
  case_decide; [discriminate|].
  case_decide; [discriminate|].
  case_decide as Hvl.
  { destruct Hvl as [_ ->]. intros [= <- <-]. eexists _, _. split; [|done].
    apply documented_vegalite, is_major_of_major. }
  rewrite bind_run.
  match goal with
  | |- context [match ?m st with _ => _ end] => destruct (m st) as [[spec|e] st1]
  end; [|discriminate].
  repeat case_decide; try discriminate; subst fmt;
    try (rewrite bind_run;
         match goal with
         | |- context [match ?m st1 with _ => _ end] => destruct (m st1) as [[out|e] st2]
         end; [|discriminate]);
    intros [= <- <-]; eexists _, _; (split; [|done]).
  - apply documented_vega, is_major_of_major.
  - apply documented_png.
  - apply documented_svg.
  - apply documented_pdf.
Qed.

(** The request check lets the formats of [valid_formats] through. *)
Lemma node_check_passes (self : Node.NodeSaver) fmt st :
  fmt ∈ Node.valid_formats →
  Node.produce_mimebundle self fmt st = Node._mimebundle self fmt st.
Proof.
  intros Hfmt. unfold Node.produce_mimebundle, Node.check_request.
  by rewrite decide_True.
Qed.

Lemma browser_check_passes (self : Pyppeteer.PyppeteerSaver) fmt st :
  fmt ∈ default [] (Pyppeteer.valid_formats !! Pyppeteer._mode self) →
  Pyppeteer.produce_mimebundle self fmt st
  = match Pyppeteer._serialize self fmt "mimebundle" st with
    | (Ok out, st') => (Ok {[ Pyppeteer.mimetype self fmt := out ]}, st')
    | (Raise e, st') => (Raise e, st')
    end.
Proof.
  intros Hfmt. unfold Pyppeteer.produce_mimebundle, Pyppeteer.check_request.
  rewrite decide_True by done. rewrite bind_run. cbn beta iota delta [mret M_ret].
  by rewrite bind_run.
Qed.

(** The formats some mode of the browser saver declares. *)
Lemma browser_declared (self : Pyppeteer.PyppeteerSaver) fmt :
  fmt ∈ default [] (Pyppeteer.valid_formats !! Pyppeteer._mode self) →
  fmt = "png" ∨ fmt = "svg" ∨ fmt = "vega".
Proof.
  destruct (Pyppeteer.valid_formats !! Pyppeteer._mode self) as [fmts|] eqn:Hlook; simpl.
  - unfold Pyppeteer.valid_formats in Hlook.
    apply lookup_insert_Some in Hlook as [[_ <-]|[_ Hlook]].
    + rewrite !elem_of_cons, elem_of_nil. tauto.
    + apply lookup_singleton_Some in Hlook as [_ <-].
      rewrite !elem_of_cons, elem_of_nil. tauto.
  - by rewrite elem_of_nil.
Qed.

(** The type under which the browser saver files a declared format is the
    documented one, for the versions the saver pins. *)
Lemma browser_mimetype_documented (self : Pyppeteer.PyppeteerSaver) fmt :
  fmt = "png" ∨ fmt = "svg" ∨ fmt = "vega" →
  documented (default EmptyString (Pyppeteer._package_versions self !! "vega"))
    (default EmptyString (Pyppeteer._package_versions self !! "vega-lite"))
    fmt (Pyppeteer.mimetype self fmt).
Proof.
  unfold Pyppeteer.mimetype. intros H. destruct_or!; subst.
  - apply documented_png.
  - apply documented_svg.
  - rewrite (decide_False (P := "vega" = "png")) by done.
    rewrite (decide_False (P := "vega" = "svg")) by done.
    rewrite (decide_False (P := "vega" = "pdf")) by done.
    rewrite decide_True by done.
    apply documented_vega, is_major_of_major.
Qed.

(** C1. For a (mode, format) pair declared valid for an adapter, the
    bundle [produce_mimebundle] returns has exactly one key, the MIME type
    documented for the format: image/png, image/svg+xml, application/pdf,
    application/vnd.vega.v{major}+json or
    application/vnd.vegalite.v{major}+json, where the major version is what
    precedes the first dot of the version.  For the command-line saver the
    request check lets the pair through to [_mimebundle], every bundle
    returned is of that shape in any world, and where the tool chain is
    installed and works one is returned.  For the browser saver every
    bundle returned is of that shape, and one is returned, with the content
    [_serialize] gives, whenever [_serialize] returns. *)
Theorem mimebundle_single_documented_key :
  (∀ (self : Node.NodeSaver) fmt,
     Node.compatible (Node._mode self) fmt →
     ∃ key,
       documented VEGA_VERSION VEGALITE_VERSION fmt key ∧
       (∀ st, Node.produce_mimebundle self fmt st = Node._mimebundle self fmt st) ∧
       (∀ st b st',
          Node.produce_mimebundle self fmt st = (Ok b, st') →
          dom b = {[ key ]} ∧ size b = 1) ∧
       (∀ root good st,
          Node.working (Node._node self) root good →
          Node.ready (Node._node self) root good st →
          ∃ c st', Node.produce_mimebundle self fmt st = (Ok {[ key := c ]}, st'))) ∧
  (∀ (self : Pyppeteer.PyppeteerSaver) fmt,
     fmt ∈ default [] (Pyppeteer.valid_formats !! Pyppeteer._mode self) →
     ∃ key,
       documented (default EmptyString (Pyppeteer._package_versions self !! "vega"))
         (default EmptyString (Pyppeteer._package_versions self !! "vega-lite")) fmt key ∧
       (∀ st b st',
          Pyppeteer.produce_mimebundle self fmt st = (Ok b, st') →
          dom b = {[ key ]} ∧ size b = 1) ∧
       (∀ st c st',
          Pyppeteer._serialize self fmt "mimebundle" st = (Ok c, st') →
          Pyppeteer.produce_mimebundle self fmt st = (Ok {[ key := c ]}, st'))).
Proof.
  split.
  - intros self fmt (Hmode & Hfmt & Hpair).
    destruct (documented_exists VEGA_VERSION VEGALITE_VERSION fmt Hfmt) as [key Hkey].
    exists key. split; [done|].
    split; [intros st; by apply node_check_passes|]. split.
    + intros st b st'. rewrite node_check_passes by done. intros Hrun.
      destruct (mimebundle_ok_singleton _ _ _ _ _ Hrun) as (key' & c & Hkey' & ->).
      rewrite (documented_unique _ _ _ _ _ Hkey Hkey').
      by rewrite dom_singleton_L, map_size_singleton.
    + intros root good st Hworking Hready. rewrite node_check_passes by done.
      assert (∃ b st', Node._mimebundle self fmt st = (Ok b, st')) as (b & st' & Hrun).
      { unfold Node._mimebundle.
        rewrite (decide_False (P := Node._mode self ∉ _)) by (by intros ?).
        rewrite (decide_False (P := Node._mode self = "vega" ∧ _)) by done.
        case_decide; [by eexists _, _|].
        rewrite bind_run.
        assert (∃ spec st1,
          (if decide (Node._mode self = "vega-lite")
           then Node.vl2vg (Node._node self) (Node._spec self)
           else mret (Node._spec self)) st = (Ok spec, st1)
          ∧ Node.ready (Node._node self) root good st1) as (spec & st1 & -> & Hready1).
        { case_decide; [by apply (vl2vg_returns _ root good)|]. by eexists _, _. }
        repeat case_decide; try (by eexists _, _).
        - destruct (vg2png_returns _ root good Hworking spec st1 Hready1)
            as (out & st2 & Hout & _).
          rewrite (bind_ok _ _ _ _ _ Hout). by eexists _, _.
        - destruct (vg2svg_returns _ root good Hworking spec st1 Hready1)
            as (out & st2 & Hout & _).
          rewrite (bind_ok _ _ _ _ _ Hout). by eexists _, _.
        - destruct (vg2pdf_returns _ root good Hworking spec st1 Hready1)
            as (out & st2 & Hout & _).
          rewrite (bind_ok _ _ _ _ _ Hout). by eexists _, _.
        - exfalso. rewrite mode_known in Hmode. rewrite format_known in Hfmt.
          destruct_or!; first [congruence | by apply Hpair | by apply H]. }
      destruct (mimebundle_ok_singleton _ _ _ _ _ Hrun) as (key' & c & Hkey' & ->).
      rewrite (documented_unique _ _ _ _ _ Hkey Hkey').
      by exists c, st'.
  - intros self fmt Hfmt.
    exists (Pyppeteer.mimetype self fmt).
    split; [apply browser_mimetype_documented; by eapply browser_declared|].
    split.
    + intros st b st'. rewrite browser_check_passes by done.
      destruct (Pyppeteer._serialize self fmt "mimebundle" st) as [[out|e] st1]; [|done].
      intros [= <- _]. by rewrite dom_singleton_L, map_size_singleton.
    + intros st c st' Hrun. rewrite browser_check_passes by done. by rewrite Hrun.
Qed.

(** ** Formats that are not recognized *)

Lemma recognized_formats fmt :
  Pyppeteer.recognized fmt ↔ fmt = "png" ∨ fmt = "svg" ∨ fmt = "vega".
Proof.
  unfold Pyppeteer.recognized. split.
  - intros (mode & fmts & Hlook & Hin).
    unfold Pyppeteer.valid_formats in Hlook.
    apply lookup_insert_Some in Hlook as [[_ <-]|[_ Hlook]].
    + rewrite !elem_of_cons, elem_of_nil in Hin. tauto.
    + apply lookup_singleton_Some in Hlook as [_ <-].
      rewrite !elem_of_cons, elem_of_nil in Hin. tauto.
  - intros Hfmt. exists "vega-lite", ["png"; "svg"; "vega"].
    split; [apply valid_formats_vegalite|].
    rewrite !elem_of_cons. tauto.
Qed.

(** C2. A format outside the recognized set of an adapter is refused by
    [produce_mimebundle] with a [ValueError] in the state the request came
    in: nothing has been run by then, no converter and no browser.  Behind
    the check, the hooks never return a value for such a format either, and
    [_mimebundle] in a mode other than "vega-lite" refuses it itself, again
    before anything is run. *)
Theorem unrecognized_format fmt :
  (fmt ∉ Node.valid_formats →
   ∀ (self : Node.NodeSaver) st,
     (∃ msg, Node.produce_mimebundle self fmt st = (Raise (ValueError msg), st)) ∧
     (∀ b st', Node._mimebundle self fmt st ≠ (Ok b, st')) ∧
     (Node._mode self ≠ "vega-lite" →
        ∃ msg, Node._mimebundle self fmt st = (Raise (ValueError msg), st))) ∧
  (¬ Pyppeteer.recognized fmt →
   ∀ (self : Pyppeteer.PyppeteerSaver) st,
     (∃ msg, Pyppeteer.produce_mimebundle self fmt st = (Raise (ValueError msg), st)) ∧
     (∀ ct c st', Pyppeteer._serialize self fmt ct st ≠ (Ok c, st'))).
Proof.
  split.
  - intros Hfmt self st.
    assert (Hentry : ∃ msg,
      Node.produce_mimebundle self fmt st = (Raise (ValueError msg), st)).
    { unfold Node.produce_mimebundle, Node.check_request.
      rewrite decide_False by done. by eexists. }
    rewrite format_known in Hfmt.
    assert (fmt ≠ "pdf" ∧ fmt ≠ "png" ∧ fmt ≠ "svg" ∧ fmt ≠ "vega" ∧ fmt ≠ "vega-lite")
      as (Hpdf & Hpng & Hsvg & Hvega & Hvl) by tauto.
    assert (Hhook : Node._mode self ≠ "vega-lite" →
      ∃ msg, Node._mimebundle self fmt st = (Raise (ValueError msg), st)).
    { intros Hmode. unfold Node._mimebundle.
      case_decide; [by eexists|].
      case_decide; [by eexists|].
      eexists. repeat settle_guard. rewrite bind_run. cbn beta iota delta [mret M_ret].
      by repeat settle_guard. }
    split_and!; [done | | done].
    intros b st'. destruct (decide (Node._mode self = "vega-lite")) as [Hmode|Hmode].
    + unfold Node._mimebundle. rewrite Hmode.
      repeat settle_guard. rewrite bind_run.
      destruct (Node.vl2vg _ _ _) as [[spec|e] st1]; [|done].
      by repeat settle_guard.
    + destruct (Hhook Hmode) as [msg ->]. done.
  - intros Hfmt self st. split.
    + unfold Pyppeteer.produce_mimebundle, Pyppeteer.check_request.
      rewrite decide_False; [by eexists|].
      intros Hin. apply Hfmt. apply recognized_formats. by eapply browser_declared.
    + intros ct c st'. rewrite recognized_formats in Hfmt.
      assert (fmt ≠ "png" ∧ fmt ≠ "svg" ∧ fmt ≠ "vega") as (Hpng & Hsvg & Hvega) by tauto.
      unfold Pyppeteer._serialize. rewrite bind_run.
      destruct (Pyppeteer._extract self fmt st) as [[out|e] st1]; [|done].
      by repeat settle_guard.
Qed.

End Properties.

(** * The savers on the fixture *)

Section OnFixture.
Import Fixture.

Example strip_npm_stdout : strip (npm_stdout installed) = root0.
Proof. reflexivity. Qed.

(** White space beyond ASCII is stripped too: here a no-break space and an
    ideographic space around the path. *)
Example strip_unicode :
  strip (utf8 0x3000 +:+ root0 +:+ utf8 0xA0 +:+ nl) = root0.
Proof. vm_compute; reflexivity. Qed.

Example vl2vg_path :
  os_path_join root0 ["vega-lite"; "bin"; "vl2vg"]
  = "/usr/lib/node_modules/vega-lite/bin/vl2vg".
Proof. reflexivity. Qed.

Example join_after_slash : os_path_join "/" ["vega-cli"; "bin"] = "/vega-cli/bin".
Proof. reflexivity. Qed.

Example major_of_version : major "5.21.0" = "5" ∧ major "4" = "4".
Proof. split; [by apply (major_dotted "5" "21.0") | by apply major_undotted]. Qed.

Example data_url_split :
  split_once "," "data:image/png;base64,iVBO,Rw==" = ["data:image/png;base64"; "iVBO,Rw=="].
Proof. by apply (split_once_at_first "," "data:image/png;base64" "iVBO,Rw=="). Qed.

Example png_magic :
  b64decode (str_encode "iVBORw==") = inr [x89; x50; x4e; x47].
Proof. reflexivity. Qed.

(** The machine with the converters installed is a working tool chain. *)
Lemma installed_working : Node.working node0 root0 (λ w, w = installed).
Proof.
  split.
  - intros w ->. by exists (npm_stdout installed), installed.
  - by intros w ->.
  - intros w pkg name -> Hin. unfold Node.converters in Hin.
    rewrite !elem_of_cons, elem_of_nil in Hin.
    destruct_or!; try done; simplify_eq; by vm_compute.
  - intros w pkg name input -> Hin. unfold Node.converters in Hin.
    rewrite !elem_of_cons, elem_of_nil in Hin.
    destruct_or!; try done; simplify_eq; by eexists _, installed.
  - intros w input out w' -> Hrun. vm_compute in Hrun.
    injection Hrun as <- _. by eexists.
  - intros w input out w' -> Hrun. by eexists.
Qed.

Lemma start_ready : Node.ready node0 root0 (λ w, w = installed) (start installed).
Proof. split; [done | by left]. Qed.

Lemma vegalite_png_compatible : Node.compatible "vega-lite" "png".
Proof.
  split_and!.
  - rewrite mode_known. by right.
  - rewrite format_known. tauto.
  - intros [? _]. discriminate.
Qed.

Lemma vegalite_vega_compatible : Node.compatible "vega-lite" "vega".
Proof.
  split_and!.
  - rewrite mode_known. by right.
  - rewrite format_known. tauto.
  - intros [? _]. discriminate.
Qed.

Lemma mimebundle_single_documented_key_witness :
  (∃ c st',
     Node.produce_mimebundle (node_saver "vega-lite") "png" (start installed)
     = (Ok {[ "image/png" := c ]}, st')) ∧
  (∃ c st',
     Node.produce_mimebundle (node_saver "vega-lite") "vega" (start installed)
     = (Ok {[ "application/vnd.vega.v5+json" := c ]}, st')) ∧
  Pyppeteer.produce_mimebundle (browser_saver "vega-lite") "vega" (start installed)
  = (Ok {[ "application/vnd.vega.v5+json" := CVal chart ]},
     (Pyppeteer._serialize (browser_saver "vega-lite") "vega" "mimebundle"
        (start installed)).2).
Proof.
  destruct mimebundle_single_documented_key as [Hnode Hbrowser].
  split_and!.
  - destruct (Hnode (node_saver "vega-lite") "png" vegalite_png_compatible)
      as (key & Hkey & _ & _ & Hreturns).
    inversion Hkey; subst.
    exact (Hreturns root0 (λ w, w = installed) (start installed)
             installed_working start_ready).
  - destruct (Hnode (node_saver "vega-lite") "vega" vegalite_vega_compatible)
      as (key & Hkey & _ & _ & Hreturns).
    inversion Hkey as [| | |m Hm|]; subst.
    rewrite (is_major_unique _ _ Hm) in Hreturns.
    exact (Hreturns root0 (λ w, w = installed) (start installed)
             installed_working start_ready).
  - destruct (Hbrowser (browser_saver "vega-lite") "vega") as (key & Hkey & _ & Hreturns).
    { change ("vega" ∈ default [] (Pyppeteer.valid_formats !! "vega-lite")).
      rewrite valid_formats_vegalite. simpl. rewrite !elem_of_cons. tauto. }
    inversion Hkey as [| | |m Hm|]; subst.
    rewrite (is_major_unique _ _ Hm) in Hreturns.
    apply Hreturns. vm_compute; reflexivity.
Defined.

Lemma node_vegalite_passthrough_witness :
  Node._mimebundle (node_saver "vega-lite") "vega-lite" (start installed)
  = (Ok {[ "application/vnd.vegalite.v4+json" := CVal chart ]}, start installed).
Proof. exact (node_vegalite_passthrough (node_saver "vega-lite") (start installed) eq_refl). Defined.

Lemma node_vega_passthrough_witness :
  Node._mimebundle (node_saver "vega") "vega" (start installed)
  = (Ok {[ "application/vnd.vega.v5+json" := CVal chart ]}, start installed).
Proof. exact (node_vega_passthrough (node_saver "vega") (start installed) eq_refl). Defined.

Lemma vega_to_vegalite_refused_witness :
  (∃ msg, Node._mimebundle (node_saver "vega") "vega-lite" (start installed)
          = (Raise (ValueError msg), start installed)) ∧
  (∃ msg, Pyppeteer.produce_mimebundle (browser_saver "vega") "vega-lite" (start installed)
          = (Raise (ValueError msg), start installed)).
Proof.
  exact (vega_to_vegalite_refused (node_saver "vega") (browser_saver "vega")
           (start installed) eq_refl eq_refl).
Defined.

Lemma extract_payload_witness :
  Pyppeteer._extract (browser_saver "vega-lite") "vega" (start failing_page)
  = (Raise (JavascriptError (JStr "Error: Invalid specification")),
     (Pyppeteer.evaluate_page (browser_saver "vega-lite") "vega" (start failing_page)).2) ∧
  Pyppeteer._extract (browser_saver "vega-lite") "svg" (start installed)
  = (Ok (JStr "<svg></svg>"),
     (Pyppeteer.evaluate_page (browser_saver "vega-lite") "svg" (start installed)).2).
Proof.
  assert (Hfail :
    Pyppeteer.evaluate_page (browser_saver "vega-lite") "vega" (start failing_page)
    = (Ok {[ "error" := JStr "Error: Invalid specification" ]},
       (Pyppeteer.evaluate_page (browser_saver "vega-lite") "vega" (start failing_page)).2))
    by (vm_compute; reflexivity).
  assert (Hsvg :
    Pyppeteer.evaluate_page (browser_saver "vega-lite") "svg" (start installed)
    = (Ok {[ "result" := JStr "<svg></svg>" ]},
       (Pyppeteer.evaluate_page (browser_saver "vega-lite") "svg" (start installed)).2))
    by (vm_compute; reflexivity).
  split.
  - apply (proj1 (extract_payload _ _ _ _ _ Hfail)). vm_compute; reflexivity.
  - apply (proj2 (extract_payload _ _ _ _ _ Hsvg)); vm_compute; reflexivity.
Defined.

Lemma serialize_by_format_witness :
  Pyppeteer._serialize (browser_saver "vega-lite") "png" "mimebundle" (start installed)
  = (Ok (CBytes [x89; x50; x4e; x47]),
     (Pyppeteer._extract (browser_saver "vega-lite") "png" (start installed)).2) ∧
  Pyppeteer._serialize (browser_saver "vega-lite") "svg" "mimebundle" (start installed)
  = (Ok (CVal (JStr "<svg></svg>")),
     (Pyppeteer._extract (browser_saver "vega-lite") "svg" (start installed)).2).
Proof.
  assert (Hpng :
    Pyppeteer._extract (browser_saver "vega-lite") "png" (start installed)
    = (Ok (JStr "data:image/png;base64,iVBORw=="),
       (Pyppeteer._extract (browser_saver "vega-lite") "png" (start installed)).2))
    by (vm_compute; reflexivity).
  assert (Hsvg :
    Pyppeteer._extract (browser_saver "vega-lite") "svg" (start installed)
    = (Ok (JStr "<svg></svg>"),
       (Pyppeteer._extract (browser_saver "vega-lite") "svg" (start installed)).2))
    by (vm_compute; reflexivity).
  split.
  - apply (proj1 (serialize_by_format _ _ "mimebundle" _ _ _ Hpng) eq_refl
             "data:image/png;base64" "iVBORw==" [x89; x50; x4e; x47]);
      vm_compute; reflexivity.
  - apply (proj2 (serialize_by_format _ _ "mimebundle" _ _ _ Hsvg)). by left.
Defined.

Lemma npm_root_discovery_witness :
  Node.vl2vg node0 chart (start no_root)
  = Node.root_not_found node0 (npm_stdout no_root) no_root (start no_root) ∧
  (let st1 := (Node.npm_root node0 (start installed)).2 in
   let st2 := (Node._mimebundle (node_saver "vega-lite") "png"
                 (Node.vl2vg node0 chart st1).2).2 in
   trace st1 = [Spawn ["npm"; "root"; "--global"] None] ∧
   Node.npm_root node0 st2 = (Ok root0, st2) ∧
   ∃ evs, trace st2 = trace st1 ++ evs ∧ Forall (converter_run root0) evs).
Proof.
  split.
  - destruct (npm_root_discovery node0 (start no_root)) as [Hmissing _].
    destruct (Hmissing (npm_stdout no_root) no_root eq_refl eq_refl eq_refl) as [_ Hconv].
    apply (Hconv chart).
  - intros st1 st2.
    destruct (npm_root_discovery node0 (start installed)) as [_ Hfound].
    assert (Hroot : Node.npm_root node0 (start installed) = (Ok root0, st1))
      by (vm_compute; reflexivity).
    destruct (Hfound root0 _ Hroot) as (Honce & _ & Hkept).
    split; [exact (Honce eq_refl)|].
    assert (Huses : Node.uses node0 st1 st2).
    { apply (Node.uses_mimebundle node0 st1 _ (node_saver "vega-lite") "png" eq_refl).
      apply Node.uses_vl2vg. apply Node.uses_none. }
    destruct (Hkept st2 Huses) as (_ & Hread & Htrace & _).
    by split.
Defined.

Lemma extract_keeps_embed_options_witness :
  heap (Pyppeteer._extract (browser_saver "vega-lite") "png" (start installed)).2 !! 0%nat
  = Some embed_options.
Proof.
  exact (proj1 (extract_keeps_embed_options (browser_saver "vega-lite") "png"
                  (start installed))).
Defined.

Lemma jpeg_unrecognized :
  ("jpeg" ∉ Node.valid_formats) ∧ ¬ Pyppeteer.recognized "jpeg".
Proof.
  rewrite format_known, recognized_formats.
  split; intros H; destruct_or!; discriminate.
Qed.

Lemma unrecognized_format_witness :
  (∃ msg, Node.produce_mimebundle (node_saver "vega-lite") "jpeg" (start installed)
          = (Raise (ValueError msg), start installed)) ∧
  (∃ msg, Pyppeteer.produce_mimebundle (browser_saver "vega-lite") "jpeg" (start installed)
          = (Raise (ValueError msg), start installed)).
Proof.
  destruct (unrecognized_format "jpeg") as [Hnode Hbrowser].
  split.
  - apply (Hnode (proj1 jpeg_unrecognized) (node_saver "vega-lite") (start installed)).
  - apply (Hbrowser (proj2 jpeg_unrecognized) (browser_saver "vega-lite") (start installed)).
Defined.

(** C8, as stated, fails.  The cache has one slot for all instances: after
    a second instance has discovered the root, the first one, whose own
    discovery had succeeded, runs the query again. *)
Lemma npm_root_cache_evicted :
  ∃ st1 st2,
    Node.npm_root node0 (start installed) = (Ok root0, st1) ∧
    Node.npm_root node1 st1 = (Ok root0, st2) ∧
    Node.npm_root node0 st2 ≠ (Ok root0, st2) ∧
    trace (Node.npm_root node0 st2).2
    = trace st2 ++ [Spawn ["npm"; "root"; "--global"] None].
Proof.
  exists (Node.npm_root node0 (start installed)).2,
         (Node.npm_root node1 (Node.npm_root node0 (start installed)).2).2.
  split_and!; try (vm_compute; reflexivity).
  intros Hrun. apply (f_equal (λ r, length (trace r.2))) in Hrun.
  vm_compute in Hrun. discriminate.
Qed.

End OnFixture.

(** * More on the command-line saver *)

Section NodeCoverage.
Context {lib : PyLib} {W : Type} {host : Host W}.
Implicit Types (st : state W) (fmt : string).

(** ** Counting what was spawned *)

Lemma count_app p evs1 evs2 : count p (evs1 ++ evs2) = count p evs1 + count p evs2.
Proof. unfold count. by rewrite filter_app, length_app. Qed.

Lemma spawned_refl q c st : spawned q c st st.
Proof.
  exists []. rewrite app_nil_r. split; [done|]. split; [by apply Forall_nil|].
  unfold count. simpl. lia.
Qed.

Lemma spawned_trans q1 c1 q2 c2 (a b d : state W) :
  spawned q1 c1 a b → spawned q2 c2 b d → spawned (q1 + q2) (c1 + c2) a d.
Proof.
  intros (evs1 & Ht1 & Hf1 & Hq1 & Hc1) (evs2 & Ht2 & Hf2 & Hq2 & Hc2).
  exists (evs1 ++ evs2). split_and!.
  - by rewrite Ht2, Ht1, app_assoc.
  - by apply Forall_app.
  - rewrite count_app. lia.
  - rewrite count_app. lia.
Qed.

Lemma spawned_weaken q c q' c' (a b : state W) :
  spawned q c a b → q ≤ q' → c ≤ c' → spawned q' c' a b.
Proof.
  intros (evs & Ht & Hf & Hq & Hc) ??. exists evs. split_and!; [done..|lia|lia].
Qed.

Lemma query_spawned cmd (f : W → (lib_error + string) * W) st :
  spawned 1 0 st (host_call (Spawn cmd None) f st).2.
Proof.
  exists [Spawn cmd None]. unfold host_call.
  destruct (f (world st)) as [[e|a] w]; simpl;
    (split; [done|]; split; [apply Forall_singleton; tauto|]; by vm_compute).
Qed.

Lemma convert_spawned {A} cmd input (f : W → (lib_error + A) * W) st :
  spawned 0 1 st (host_call (Spawn cmd (Some input)) f st).2.
Proof.
  exists [Spawn cmd (Some input)]. unfold host_call.
  destruct (f (world st)) as [[e|a] w]; simpl;
    (split_and!; [done | constructor; [by right | constructor] | done | done]).
Qed.

(** ** Root discovery *)

Lemma npm_root_spawned (self : Node._NodeCommands) st :
  spawned 1 0 st (Node.npm_root self st).2.
Proof.
  unfold Node.npm_root, lru_cache_1.
  destruct (cache_lookup _ _); [apply spawned_refl|].
  pose proof (query_spawned (Node.npm_cmd self) (check_output_text (Node.npm_cmd self)) st)
    as Hq.
  rewrite npm_root_body_run. unfold host_call in Hq.
  destruct (check_output_text _ _) as [[e|out] w]; [done|].
  by destruct (isdir _ _).
Qed.

Lemma npm_root_raise_inv (self : Node._NodeCommands) st e st1 :
  Node.npm_root self st = (Raise e, st1) →
  npm_root_cache st1 = npm_root_cache st ∧
  cache_lookup (Node.oid self) st1 = None ∧
  trace st1 = trace st ++ [Spawn (Node.npm_cmd self) None] ∧
  ((∃ err, e = LibraryError err) ∨
   (∃ out, e = RuntimeError ("npm root not found; got " +:+ strip out))).
Proof.
  unfold Node.npm_root, lru_cache_1.
  destruct (cache_lookup (Node.oid self) st) eqn:Hc; [done|].
  rewrite npm_root_body_run.
  destruct (check_output_text _ _) as [[err|out] w].
  - intros [= <- <-]. split_and!; [done | done | done | eauto].
  - destruct (isdir _ _); intros [= <- <-].
    split_and!; [done | done | done | eauto].
Qed.

(** X2. A discovery that fails is not remembered.  [npm_root] fails only on
    a read that ran the query, either with the error of the query itself or
    with the configuration error that names the path printed; the cache is
    left as it was, with no entry for the instance, and the next read by
    the instance runs the query again. *)
Theorem failed_discovery_not_cached (self : Node._NodeCommands) st e st1 :
  Node.npm_root self st = (Raise e, st1) →
  npm_root_cache st1 = npm_root_cache st ∧
  trace st1 = trace st ++ [Spawn (Node.npm_cmd self) None] ∧
  ((∃ err, e = LibraryError err) ∨
   (∃ out, e = RuntimeError ("npm root not found; got " +:+ strip out))) ∧
  trace (Node.npm_root self st1).2 = trace st1 ++ [Spawn (Node.npm_cmd self) None].
Proof.
  intros Hfail.
  destruct (npm_root_raise_inv _ _ _ _ Hfail) as (Hcache & Hmiss & Htrace & Herr).
  split_and!; [done..|].
  rewrite (npm_root_miss _ _ Hmiss), npm_root_body_run.
  destruct (check_output_text _ _) as [[err|out] w]; [done|].
  by destruct (isdir _ _).
Qed.

(** ** The converters, once the root is known *)

Lemma vl2vg_run (self : Node._NodeCommands) spec st root st1 :
  Node.npm_root self st = (Ok root, st1) →
  let path := os_path_join root ["vega-lite"; "bin"; "vl2vg"] in
  let input := str_encode (json_dumps spec) in
  Node.vl2vg self spec st
  = if path_exists path (world st1) then
      match check_output [path] input (world st1) with
      | (inl e, w') => tool_failed path input e w' st1
      | (inr out, w') =>
          match json_loads out with
          | inl e => (Raise (LibraryError e), after_run st1 path input w')
          | inr j => (Ok j, after_run st1 path input w')
          end
      end
    else not_installed self "vl2vg" path st1.
Proof.
  intros Hroot path input. unfold Node.vl2vg.
  rewrite (bind_ok _ _ _ _ _ Hroot). cbv zeta. rewrite bind_run.
  unfold host_query. cbv beta iota. fold path.
  destruct (path_exists path (world st1)); [|done]. cbv beta iota delta [negb].
  rewrite bind_run. unfold host_call. fold input.
  destruct (check_output [path] input (world st1)) as [[e|out] w']; [done|].
  unfold lift. by destruct (json_loads out).
Qed.

Lemma vg2png_run (self : Node._NodeCommands) spec st root st1 :
  Node.npm_root self st = (Ok root, st1) →
  let path := os_path_join root ["vega-cli"; "bin"; "vg2png"] in
  let input := str_encode (json_dumps spec) in
  Node.vg2png self spec st
  = if path_exists path (world st1) then
      match check_output [path] input (world st1) with
      | (inl e, w') => tool_failed path input e w' st1
      | (inr out, w') => (Ok out, after_run st1 path input w')
      end
    else not_installed self "vg2png" path st1.
Proof.
  intros Hroot path input. unfold Node.vg2png.
  rewrite (bind_ok _ _ _ _ _ Hroot). cbv zeta. rewrite bind_run.
  unfold host_query. cbv beta iota. fold path.
  destruct (path_exists path (world st1)); [|done]. cbv beta iota delta [negb].
  unfold host_call. fold input.
  by destruct (check_output [path] input (world st1)) as [[e|out] w'].
Qed.

Lemma vg2pdf_run (self : Node._NodeCommands) spec st root st1 :
  Node.npm_root self st = (Ok root, st1) →
  let path := os_path_join root ["vega-cli"; "bin"; "vg2pdf"] in
  let input := str_encode (json_dumps spec) in
  Node.vg2pdf self spec st
  = if path_exists path (world st1) then
      match check_output [path] input (world st1) with
      | (inl e, w') => tool_failed path input e w' st1
      | (inr out, w') => (Ok out, after_run st1 path input w')
      end
    else not_installed self "vg2pdf" path st1.
Proof.
  intros Hroot path input. unfold Node.vg2pdf.
  rewrite (bind_ok _ _ _ _ _ Hroot). cbv zeta. rewrite bind_run.
  unfold host_query. cbv beta iota. fold path.
  destruct (path_exists path (world st1)); [|done]. cbv beta iota delta [negb].
  unfold host_call. fold input.
  by destruct (check_output [path] input (world st1)) as [[e|out] w'].
Qed.

Lemma vg2svg_run (self : Node._NodeCommands) spec st root st1 :
  Node.npm_root self st = (Ok root, st1) →
  let path := os_path_join root ["vega-cli"; "bin"; "vg2svg"] in
  let input := str_encode (json_dumps spec) in
  Node.vg2svg self spec st
  = if path_exists path (world st1) then
      match check_output [path] input (world st1) with
      | (inl e, w') => tool_failed path input e w' st1
      | (inr out, w') =>
          match bytes_decode out with
          | inl e => (Raise (LibraryError e), after_run st1 path input w')
          | inr text => (Ok text, after_run st1 path input w')
          end
      end
    else not_installed self "vg2svg" path st1.
Proof.
  intros Hroot path input. unfold Node.vg2svg.
  rewrite (bind_ok _ _ _ _ _ Hroot). cbv zeta. rewrite bind_run.
  unfold host_query. cbv beta iota. fold path.
  destruct (path_exists path (world st1)); [|done]. cbv beta iota delta [negb].
  rewrite bind_run. unfold host_call. fold input.
  destruct (check_output [path] input (world st1)) as [[e|out] w']; [done|].
  unfold lift. by destruct (bytes_decode out).
Qed.

(** X1. A converter that is not installed.  Once the root is known, a
    converter whose file does not exist under it fails with the
    [RuntimeError] that names the command, the path tried and the install
    command ([-g] for a global installation); the state is the one the
    look-up left, so nothing was run after it. *)
Theorem converter_not_installed (self : Node._NodeCommands) spec st root st1 :
  Node.npm_root self st = (Ok root, st1) →
  (path_exists (os_path_join root ["vega-lite"; "bin"; "vl2vg"]) (world st1) = false →
   Node.vl2vg self spec st
   = not_installed self "vl2vg" (os_path_join root ["vega-lite"; "bin"; "vl2vg"]) st1) ∧
  (path_exists (os_path_join root ["vega-cli"; "bin"; "vg2png"]) (world st1) = false →
   Node.vg2png self spec st
   = not_installed self "vg2png" (os_path_join root ["vega-cli"; "bin"; "vg2png"]) st1) ∧
  (path_exists (os_path_join root ["vega-cli"; "bin"; "vg2pdf"]) (world st1) = false →
   Node.vg2pdf self spec st
   = not_installed self "vg2pdf" (os_path_join root ["vega-cli"; "bin"; "vg2pdf"]) st1) ∧
  (path_exists (os_path_join root ["vega-cli"; "bin"; "vg2svg"]) (world st1) = false →
   Node.vg2svg self spec st
   = not_installed self "vg2svg" (os_path_join root ["vega-cli"; "bin"; "vg2svg"]) st1).
Proof.
  intros Hroot. split_and!; intros Hmissing.
  - by rewrite (vl2vg_run _ _ _ _ _ Hroot), Hmissing.
  - by rewrite (vg2png_run _ _ _ _ _ Hroot), Hmissing.
  - by rewrite (vg2pdf_run _ _ _ _ _ Hroot), Hmissing.
  - by rewrite (vg2svg_run _ _ _ _ _ Hroot), Hmissing.
Qed.

(** X3. A converter that fails.  Once the root is known and the converter
    is there, an error of its process (a non-zero exit status, for
    instance) is the error the call raises, in the state after that one
    run: no output is made up and nothing else is run. *)
Theorem tool_failure_propagates (self : Node._NodeCommands) spec st root st1 e w' :
  Node.npm_root self st = (Ok root, st1) →
  let input := str_encode (json_dumps spec) in
  (∀ path, path = os_path_join root ["vega-lite"; "bin"; "vl2vg"] →
     path_exists path (world st1) = true →
     check_output [path] input (world st1) = (inl e, w') →
     Node.vl2vg self spec st = tool_failed path input e w' st1) ∧
  (∀ path, path = os_path_join root ["vega-cli"; "bin"; "vg2png"] →
     path_exists path (world st1) = true →
     check_output [path] input (world st1) = (inl e, w') →
     Node.vg2png self spec st = tool_failed path input e w' st1) ∧
  (∀ path, path = os_path_join root ["vega-cli"; "bin"; "vg2pdf"] →
     path_exists path (world st1) = true →
     check_output [path] input (world st1) = (inl e, w') →
     Node.vg2pdf self spec st = tool_failed path input e w' st1) ∧
  (∀ path, path = os_path_join root ["vega-cli"; "bin"; "vg2svg"] →
     path_exists path (world st1) = true →
     check_output [path] input (world st1) = (inl e, w') →
     Node.vg2svg self spec st = tool_failed path input e w' st1).
Proof.
  intros Hroot input. split_and!; intros path -> Hthere Hrun.
  - by rewrite (vl2vg_run _ _ _ _ _ Hroot), Hthere; fold input; rewrite Hrun.
  - by rewrite (vg2png_run _ _ _ _ _ Hroot), Hthere; fold input; rewrite Hrun.
  - by rewrite (vg2pdf_run _ _ _ _ _ Hroot), Hthere; fold input; rewrite Hrun.
  - by rewrite (vg2svg_run _ _ _ _ _ Hroot), Hthere; fold input; rewrite Hrun.
Qed.

(** ** What the converters raise and spawn *)

Lemma npm_root_tool_error (self : Node._NodeCommands) :
  raises_only tool_error (Node.npm_root self).
Proof.
  intros st e st1 Hfail.
  destruct (npm_root_raise_inv _ _ _ _ Hfail) as (_ & _ & _ & [[err ->]|[out ->]]).
  - right. eauto.
  - left. eauto.
Qed.

Lemma after_run_spawned st path input (w' : W) :
  spawned 0 1 st (after_run st path input w').
Proof.
  exists [Spawn [path] (Some input)].
  split; [done|]. split; [apply Forall_singleton; tauto|]. by vm_compute.
Qed.

Lemma after_run_lookup k st path input (w' : W) :
  cache_lookup k (after_run st path input w') = cache_lookup k st.
Proof. reflexivity. Qed.

Lemma npm_root_facts (self : Node._NodeCommands) st :
  match Node.npm_root self st with
  | (Ok root, st1) =>
      spawned 1 0 st st1 ∧ cache_lookup (Node.oid self) st1 = Some root
      ∧ (is_Some (cache_lookup (Node.oid self) st) → st1 = st)
  | (Raise e, st1) =>
      tool_error e ∧ spawned 1 0 st st1 ∧ cache_lookup (Node.oid self) st = None
  end.
Proof.
  pose proof (npm_root_spawned self st) as Hs.
  destruct (Node.npm_root self st) as [[root|e] st1] eqn:Hroot.
  - split_and!; [done | by eapply npm_root_cached |].
    intros [v Hv]. rewrite (npm_root_hit _ _ _ Hv) in Hroot. by injection Hroot.
  - split_and!; [by eapply npm_root_tool_error | done |].
    destruct (cache_lookup (Node.oid self) st) as [v|] eqn:Hv; [|done].
    by rewrite (npm_root_hit _ _ _ Hv) in Hroot.
Qed.

Lemma well_behaved_after_root {A} (self : Node._NodeCommands) (k : string → M W A) :
  (∀ root st1,
     (∀ e, (k root st1).1 = Raise e → tool_error e) ∧
     spawned 0 1 st1 (k root st1).2 ∧
     cache_lookup (Node.oid self) (k root st1).2 = cache_lookup (Node.oid self) st1) →
  well_behaved self (Node.npm_root self ≫= k).
Proof.
  intros Hk st. rewrite bind_run.
  pose proof (npm_root_facts self st) as Hfacts.
  destruct (Node.npm_root self st) as [[root|e] st1].
  - destruct Hfacts as (Hs & Hc & Hhit).
    destruct (Hk root st1) as (Herr & Hs1 & Hc1).
    split_and!.
    + done.
    + apply (spawned_trans 1 0 0 1 _ _ _ Hs Hs1).
    + intros Hsome. by rewrite <- (Hhit Hsome) at 1.
    + intros a _. rewrite Hc1, Hc. eauto.
  - destruct Hfacts as (Herr & Hs & Hmiss). simpl. split_and!.
    + by intros e' [= <-].
    + apply (spawned_weaken 1 0); [done | lia | lia].
    + rewrite Hmiss. by intros [? ?].
    + done.
Qed.

Lemma vl2vg_well_behaved (self : Node._NodeCommands) spec :
  well_behaved self (Node.vl2vg self spec).
Proof.
  apply well_behaved_after_root. intros root st1. cbv zeta.
  rewrite bind_run. unfold host_query. cbv beta iota.
  destruct (path_exists _ _); cbv beta iota delta [negb].
  2: { split_and!; [intros e [= <-]; left; eauto | apply spawned_refl | done]. }
  rewrite bind_run. unfold host_call.
  destruct (check_output _ _ _) as [[e|out] w'].
  - split_and!; [intros e' [= <-]; right; eauto | apply after_run_spawned | done].
  - unfold lift. destruct (json_loads out);
      (split_and!; [try done; intros e' [= <-]; right; eauto
                   | apply after_run_spawned | done]).
Qed.

Lemma vg2png_well_behaved (self : Node._NodeCommands) spec :
  well_behaved self (Node.vg2png self spec).
Proof.
  apply well_behaved_after_root. intros root st1. cbv zeta.
  rewrite bind_run. unfold host_query. cbv beta iota.
  destruct (path_exists _ _); cbv beta iota delta [negb].
  2: { split_and!; [intros e [= <-]; left; eauto | apply spawned_refl | done]. }
  unfold host_call.
  destruct (check_output _ _ _) as [[e|out] w'];
    (split_and!; [try done; intros e' [= <-]; right; eauto
                 | apply after_run_spawned | done]).
Qed.

Lemma vg2pdf_well_behaved (self : Node._NodeCommands) spec :
  well_behaved self (Node.vg2pdf self spec).
Proof.
  apply well_behaved_after_root. intros root st1. cbv zeta.
  rewrite bind_run. unfold host_query. cbv beta iota.
  destruct (path_exists _ _); cbv beta iota delta [negb].
  2: { split_and!; [intros e [= <-]; left; eauto | apply spawned_refl | done]. }
  unfold host_call.
  destruct (check_output _ _ _) as [[e|out] w'];
    (split_and!; [try done; intros e' [= <-]; right; eauto
                 | apply after_run_spawned | done]).
Qed.

Lemma vg2svg_well_behaved (self : Node._NodeCommands) spec :
  well_behaved self (Node.vg2svg self spec).
Proof.
  apply well_behaved_after_root. intros root st1. cbv zeta.
  rewrite bind_run. unfold host_query. cbv beta iota.
  destruct (path_exists _ _); cbv beta iota delta [negb].
  2: { split_and!; [intros e [= <-]; left; eauto | apply spawned_refl | done]. }
  rewrite bind_run. unfold host_call.
  destruct (check_output _ _ _) as [[e|out] w'].
  - split_and!; [intros e' [= <-]; right; eauto | apply after_run_spawned | done].
  - unfold lift. destruct (bytes_decode out);
      (split_and!; [try done; intros e' [= <-]; right; eauto
                   | apply after_run_spawned | done]).
Qed.

(** ** The saver's entry point *)

Ltac decided :=
  match goal with
  | |- context [decide ?P] =>
      first [ rewrite (decide_True (P := P))
                by first [ done | congruence | (split; (done || congruence)) ]
            | rewrite (decide_False (P := P))
                by first [ done | discriminate | congruence
                         | rewrite mode_known; intuition (discriminate || congruence)
                         | (intros [? ?]; (discriminate || congruence)) ] ]
  end.


(** X5. The errors of the saver, by request.  An unknown mode is refused
    with a [ValueError] for every format, before anything is run.  A
    request the saver accepts is not refused by a check of the saver: if it
    fails, the exception is the [RuntimeError] of a missing root or
    converter, or the exception of a library call ([check_output],
    [json.loads], [bytes.decode]) passed on as it was raised.  Such an
    exception can itself be an instance of [ValueError], as
    [json.JSONDecodeError] is. *)
Theorem request_errors (self : Node.NodeSaver) fmt st :
  (Node._mode self ∉ ["vega"; "vega-lite"] →
   Node._mimebundle self fmt st
   = (Raise (ValueError "mode must be either 'vega' or 'vega-lite'"), st)) ∧
  (Node.compatible (Node._mode self) fmt →
   ∀ e st', Node._mimebundle self fmt st = (Raise e, st') → tool_error e).
Proof.
  split.
  - intros Hmode. unfold Node._mimebundle. by rewrite decide_True.
  - intros (Hmode & Hfmt & Hpair) e st'. unfold Node._mimebundle.
    rewrite (decide_False (P := Node._mode self ∉ _)) by (by intros ?).
    rewrite (decide_False (P := Node._mode self = "vega" ∧ _)) by done.
    case_decide; [done|].
    rewrite bind_run.
    assert (Hfirst : ∀ e1,
      ((if decide (Node._mode self = "vega-lite")
        then Node.vl2vg (Node._node self) (Node._spec self)
        else mret (Node._spec self)) st).1 = Raise e1 → tool_error e1).
    { case_decide; [|done].
      by destruct (vl2vg_well_behaved (Node._node self) (Node._spec self) st). }
    match goal with
    | |- context [match ?m st with _ => _ end] => destruct (m st) as [[spec|e1] st1]
    end.
    2: { intros [= <- <-]. by apply Hfirst. }
    clear Hfirst.
    repeat case_decide; try done.
    + rewrite bind_run.
      destruct (vg2png_well_behaved (Node._node self) spec st1) as (Herr & _).
      destruct (Node.vg2png _ _ _) as [[out|e2] st2]; [done|].
      intros [= <- <-]. by apply Herr.
    + rewrite bind_run.
      destruct (vg2svg_well_behaved (Node._node self) spec st1) as (Herr & _).
      destruct (Node.vg2svg _ _ _) as [[out|e2] st2]; [done|].
      intros [= <- <-]. by apply Herr.
    + rewrite bind_run.
      destruct (vg2pdf_well_behaved (Node._node self) spec st1) as (Herr & _).
      destruct (Node.vg2pdf _ _ _) as [[out|e2] st2]; [done|].
      intros [= <- <-]. by apply Herr.
    + exfalso. rewrite mode_known in Hmode. rewrite format_known in Hfmt.
      destruct_or!; first [congruence | by apply Hpair | by apply H].
Qed.


(** X7. The saver and the conversions agree.  What [_mimebundle] files
    under the MIME type of the format is what the conversions of
    [_NodeCommands] give on the saver's spec, with their failures and
    their final state: the composite conversions ([vl2png], [vl2pdf],
    [vl2svg]) and [vl2vg] in mode "vega-lite", the vega converters in mode
    "vega". *)
Theorem mimebundle_by_conversion (self : Node.NodeSaver) st :
  let node := Node._node self in
  let spec := Node._spec self in
  let text (s : string) := CVal (JStr s) in
  (Node._mode self = "vega-lite" →
   Node._mimebundle self "png" st = bundled "image/png" CBytes (Node.vl2png node spec st) ∧
   Node._mimebundle self "pdf" st
   = bundled "application/pdf" CBytes (Node.vl2pdf node spec st) ∧
   Node._mimebundle self "svg" st = bundled "image/svg+xml" text (Node.vl2svg node spec st) ∧
   Node._mimebundle self "vega" st
   = bundled ("application/vnd.vega.v" +:+ major VEGA_VERSION +:+ "+json") CVal
       (Node.vl2vg node spec st)) ∧
  (Node._mode self = "vega" →
   Node._mimebundle self "png" st = bundled "image/png" CBytes (Node.vg2png node spec st) ∧
   Node._mimebundle self "pdf" st
   = bundled "application/pdf" CBytes (Node.vg2pdf node spec st) ∧
   Node._mimebundle self "svg" st = bundled "image/svg+xml" text (Node.vg2svg node spec st)).
Proof.
  intros node spec text. unfold Node._mimebundle, bundled. split; intros ->.
  - unfold Node.vl2png, Node.vl2pdf, Node.vl2svg. fold node spec.
    split_and!; do 4 decided; rewrite !bind_run;
      destruct (Node.vl2vg node spec st) as [[vg|e] st1]; try done;
      by repeat decided.
  - fold node spec.
    split_and!; do 4 decided; rewrite bind_run; cbn beta iota delta [mret M_ret];
      by repeat decided.
Qed.

End NodeCoverage.

(** * More on the browser saver *)

Section BrowserCoverage.
Context {lib : PyLib} {W : Type} {host : Host W}.
Implicit Types (st : state W) (fmt : string).

Lemma split_once_whole sep s : has_char sep s = false → split_once sep s = [s].
Proof.
  induction s as [|c s IH]; simpl; intros Hc; [done|].
  apply orb_false_elim in Hc as [Hc Hs].
  apply bool_decide_eq_false in Hc.
  rewrite decide_False by done.
  by rewrite (IH Hs).
Qed.

(** X8. What [_serialize] does with a "png" result that is not a data URL.
    After [_extract] has returned: a result that is not a string fails the
    assertion; a string without a comma has no second part and raises
    [IndexError]; and a second part that is not valid base64 raises the
    error of [b64decode].  The state is the one [_extract] left. *)
Theorem serialize_png_errors (self : Pyppeteer.PyppeteerSaver) ct st (out : json) st' :
  Pyppeteer._extract self "png" st = (Ok out, st') →
  ((∀ s, out ≠ JStr s) →
   Pyppeteer._serialize self "png" ct st = (Raise AssertionError, st')) ∧
  (∀ s, out = JStr s → has_char "," s = false →
   Pyppeteer._serialize self "png" ct st = (Raise IndexError, st')) ∧
  (∀ pre data e, out = JStr (pre +:+ "," +:+ data) → has_char "," pre = false →
   b64decode (str_encode data) = inl e →
   Pyppeteer._serialize self "png" ct st = (Raise (LibraryError e), st')).
Proof.
  intros Hout. unfold Pyppeteer._serialize. rewrite (bind_ok _ _ _ _ _ Hout).
  rewrite decide_True by done. split_and!.
  - intros Hnot. destruct out; try done. by destruct (Hnot s).
  - intros s -> Hs. by rewrite split_once_whole.
  - intros pre data e -> Hpre He.
    change ("," +:+ data) with (String "," data).
    rewrite split_once_at_first by done. simpl.
    rewrite bind_run. unfold lift. by rewrite He.
Qed.

(** ** The browser session *)

Lemma follows_ret {A} (a : A) st : follows (mret a : M W A) st [].
Proof. exists []. simpl. by rewrite app_nil_r. Qed.

Lemma follows_call {A B} ev (f : W → (lib_error + A) * W) (k : A → M W B) st full :
  (∀ a w, f (world st) = (inr a, w) →
     follows (k a) (State w (trace st ++ [ev]) (heap st) (npm_root_cache st)) full) →
  follows (host_call ev f ≫= k) st (ev :: full).
Proof.
  intros Hk. unfold follows. rewrite bind_run. unfold host_call.
  destruct (f (world st)) as [[e|a] w] eqn:Hf; simpl.
  - exists [ev]. split_and!; [done | by exists full | done].
  - destruct (Hk a w eq_refl) as (evs & Ht & Hp & Hok). simpl in Ht.
    exists (ev :: evs). split_and!.
    + by rewrite Ht, <- app_assoc.
    + by apply prefix_cons.
    + intros b Hb. by rewrite (Hok b Hb).
Qed.

(** A step that makes no call. *)
Lemma follows_silent {A B} (m : M W A) (k : A → M W B) st full :
  trace (m st).2 = trace st →
  (∀ a st1, m st = (Ok a, st1) → follows (k a) st1 full) →
  follows (m ≫= k) st full.
Proof.
  intros Ht Hk. unfold follows. rewrite bind_run.
  destruct (m st) as [[a|e] st1] eqn:Hm; simpl in *.
  - destruct (Hk a st1 eq_refl) as (evs & Ht1 & Hp & Hok).
    exists evs. by rewrite Ht1, Ht.
  - exists []. rewrite Ht, app_nil_r. split_and!; [done | apply prefix_nil | done].
Qed.

Lemma follows_assoc {A B C} (m : M W A) (f : A → M W B) (k : B → M W C) st full :
  follows (m ≫= λ a, f a ≫= k) st full → follows ((m ≫= f) ≫= k) st full.
Proof.
  unfold follows. rewrite !bind_run.
  destruct (m st) as [[a|e] st1]; [|done]. by rewrite bind_run.
Qed.

(** The script tags: one call per package, with the URL of its version. *)
Lemma follows_script_tags {B} (self : Pyppeteer.PyppeteerSaver) (page : nat)
    (packages : list string) (k : unit → M W B) st0 full :
  (∀ st1, heap st1 = heap st0 → follows (k tt) st1 full) →
  ∀ st, heap st = heap st0 →
  follows
    (for_each packages (λ package,
       version ← getitem (Pyppeteer._package_versions self) package;
       let url := Pyppeteer.CDN_URL package version in
       host_call (PageAddScriptTag page url) (addScriptTag page url)) ≫= k)
    st
    (((λ package,
         PageAddScriptTag page
           (Pyppeteer.CDN_URL package
              (default EmptyString (Pyppeteer._package_versions self !! package))))
      <$> packages) ++ full).
Proof.
  intros Hk. induction packages as [|package packages IH]; intros st Hheap.
  - simpl. apply follows_silent; [done|]. intros [] st1 [= <-]. by apply Hk.
  - simpl. apply follows_assoc, follows_assoc.
    apply follows_silent.
    { unfold getitem. by destruct (_ !! _). }
    intros version st1. unfold getitem.
    destruct (Pyppeteer._package_versions self !! package) as [v|]; [|done].
    intros [= <- <-]. simpl.
    apply follows_call. intros [] w _. by apply IH.
Qed.

Lemma evaluate_page_follows (self : Pyppeteer.PyppeteerSaver) fmt st :
  follows (Pyppeteer.evaluate_page self fmt) st
    (session self fmt (session_browser st) (session_page st) (session_options self st)).
Proof.
  unfold Pyppeteer.evaluate_page, session, session_browser, session_page.
  apply follows_call. intros browser w1 ->.
  apply follows_call. intros page w2 Hpage. simpl in Hpage. rewrite Hpage.
  apply follows_call. intros [] w3 _.
  apply (follows_script_tags self page _ _ st); [|done].
  intros st1 Hheap. unfold session_options. rewrite <- Hheap.
  apply follows_silent.
  { unfold dict_copy. by destruct (heap st1 !! _). }
  intros opt st2. unfold dict_copy.
  destruct (heap st1 !! Pyppeteer._embed_options self) as [d|]; [|done].
  intros [= <- <-]. simpl.
  apply follows_silent.
  { unfold dict_setitem. simpl. by rewrite lookup_insert_eq. }
  intros [] st3. unfold dict_setitem. simpl. rewrite lookup_insert_eq.
  intros [= <-].
  apply follows_silent.
  { unfold dict_read. simpl. by rewrite lookup_insert_eq. }
  intros entries st4. unfold dict_read. simpl. rewrite lookup_insert_eq.
  intros [= <- <-].
  apply follows_call. intros result w4 _.
  apply follows_call. intros [] w5 _.
  apply follows_call. intros [] w6 _.
  apply follows_ret.
Qed.

(** ** What the browser saver raises *)

Lemma raises_only_bind {A B} (P : exn → Prop) (m : M W A) (f : A → M W B) :
  raises_only P m → (∀ a, raises_only P (f a)) → raises_only P (m ≫= f).
Proof.
  intros Hm Hf st e st'. rewrite bind_run.
  destruct (m st) as [[a|e1] st1] eqn:Hrun.
  - apply Hf.
  - intros [= <- <-]. by eapply Hm.
Qed.

Lemma raises_only_ret {A} (P : exn → Prop) (a : A) : raises_only P (mret a : M W A).
Proof. by intros st e st'. Qed.

Lemma raises_only_raise {A} (P : exn → Prop) e : P e → raises_only P (raise e : M W A).
Proof. by intros He st e' st' [= <- _]. Qed.

Lemma raises_only_call {A} (P : exn → Prop) ev (f : W → (lib_error + A) * W) :
  (∀ err, P (LibraryError err)) → raises_only P (host_call ev f).
Proof.
  intros HP st e st'. unfold host_call.
  destruct (f (world st)) as [[err|a] w]; [|done]. by intros [= <- _].
Qed.

Lemma raises_only_getitem {A} (P : exn → Prop) (d : gmap string A) k :
  (d !! k = None → P (KeyError k)) → raises_only P (getitem d k : M W A).
Proof.
  intros HP. unfold getitem.
  destruct (d !! k); [apply raises_only_ret | apply raises_only_raise; by apply HP].
Qed.

Lemma raises_only_for_each {A} (P : exn → Prop) (l : list A) (body : A → M W unit) :
  (∀ x, x ∈ l → raises_only P (body x)) → raises_only P (for_each l body).
Proof.
  intros Hbody. induction l as [|x l IH]; simpl.
  - apply raises_only_ret.
  - apply raises_only_bind.
    + apply Hbody. by left.
    + intros _. apply IH. intros y Hy. apply Hbody. by right.
Qed.

(** The round trip with the page fails only where a call of the browser
    fails, or on a package that has no version. *)
Lemma evaluate_page_raises (self : Pyppeteer.PyppeteerSaver) fmt :
  raises_only (λ e, (∃ err, e = LibraryError err)
                    ∨ (∃ k, e = KeyError k
                            ∧ k ∈ ["vega"; "vega-lite"; "vega-embed"]
                            ∧ Pyppeteer._package_versions self !! k = None))
    (Pyppeteer.evaluate_page self fmt).
Proof.
  set (P := λ e : exn, _ ∨ _).
  assert (Hlib : ∀ err, P (LibraryError err)) by (intros err; left; by exists err).
  assert (Hdict : ∀ A (m : M W A),
    (∀ st e st', m st = (Raise e, st') → e = not_a_dict) → raises_only P m).
  { intros A m Hm st e st' Hrun. rewrite (Hm _ _ _ Hrun). apply Hlib. }
  unfold Pyppeteer.evaluate_page.
  apply raises_only_bind; [by apply raises_only_call|]. intros browser.
  apply raises_only_bind; [by apply raises_only_call|]. intros page.
  apply raises_only_bind; [by apply raises_only_call|]. intros _.
  apply raises_only_bind.
  { apply raises_only_for_each. intros package Hin.
    apply raises_only_bind; [|intros version; by apply raises_only_call].
    apply raises_only_getitem. intros Hnone. right. by exists package. }
  intros _.
  apply raises_only_bind.
  { apply Hdict. intros st e st'. unfold dict_copy.
    destruct (heap st !! _); [done|]. by intros [= <- _]. }
  intros opt.
  apply raises_only_bind.
  { apply Hdict. intros st e st'. unfold dict_setitem.
    destruct (heap st !! _); [done|]. by intros [= <- _]. }
  intros _.
  apply raises_only_bind.
  { apply Hdict. intros st e st'. unfold dict_read.
    destruct (heap st !! _); [done|]. by intros [= <- _]. }
  intros entries.
  apply raises_only_bind; [by apply raises_only_call|]. intros result.
  apply raises_only_bind; [by apply raises_only_call|]. intros _.
  apply raises_only_bind; [by apply raises_only_call|]. intros _.
  apply raises_only_ret.
Qed.

Lemma prefix_reaches_end {A} (evs pre : list A) (x y : A) :
  evs `prefix_of` pre ++ [x] → y ∈ evs → y ∉ pre → evs = pre ++ [x].
Proof.
  intros [k Hk] Hin Hout.
  destruct k as [|z k _] using rev_ind.
  - by rewrite app_nil_r in Hk.
  - rewrite app_assoc in Hk. apply app_inj_tail in Hk as [Hpre _].
    exfalso. apply Hout. rewrite Hpre. apply elem_of_app. by left.
Qed.

Lemma session_ends_with_close (self : Pyppeteer.PyppeteerSaver) fmt
    (browser page : nat) opt :
  ∃ pre, session self fmt browser page opt = pre ++ [BrowserClose browser]
         ∧ ∀ b, BrowserClose b ∉ pre.
Proof.
  eexists ([_; _; _; _; _; _; _; _]). split; [reflexivity|].
  intros b Hin. rewrite !elem_of_cons, elem_of_nil in Hin.
  destruct_or!; done.
Qed.

(** X9. The calls of [_extract] are a browser session, or the beginning of
    one: launch, new page, content, the three script tags in the order
    vega, vega-lite, vega-embed with the URLs of the pinned versions, the
    evaluation, then the two [close]s.  A call that fails ends it there.
    So [_extract] has closed the browser whenever it returns a value or
    raises [JavascriptError]; and when an earlier call fails, the browser
    that was launched is not closed. *)
Theorem browser_session (self : Pyppeteer.PyppeteerSaver) fmt st :
  let full := session self fmt (session_browser st) (session_page st)
                (session_options self st) in
  ∃ evs,
    trace (Pyppeteer._extract self fmt st).2 = trace st ++ evs ∧
    evs `prefix_of` full ∧
    (∀ v, (Pyppeteer._extract self fmt st).1 = Ok v → evs = full) ∧
    (∀ m, (Pyppeteer._extract self fmt st).1 = Raise (JavascriptError m) → evs = full) ∧
    (∀ b, BrowserClose b ∈ evs → evs = full).
Proof.
  intros full.
  destruct (evaluate_page_follows self fmt st) as (evs & Ht & Hp & Hok).
  fold full in Hp, Hok.
  pose proof (evaluate_page_raises self fmt st) as Hraises.
  exists evs.
  unfold Pyppeteer._extract. rewrite bind_run.
  destruct (Pyppeteer.evaluate_page self fmt st) as [[result|e] st1]; cbn [fst snd] in *.
  - specialize (Hok result eq_refl).
    case_decide; rewrite ?bind_run; unfold getitem;
      destruct (result !! _); by split_and!.
  - split_and!; [done | done | done | |].
    + intros m [= ->]. by destruct (Hraises _ _ eq_refl) as [[err ?]|(k & ? & _)].
    + intros b Hb.
      destruct (session_ends_with_close self fmt (session_browser st) (session_page st)
                  (session_options self st)) as (pre & Hfull & Hpre).
      fold full in Hfull. rewrite Hfull in Hp |- *.
      by apply (prefix_reaches_end evs pre _ (BrowserClose b)).
Qed.

(** ** The script and what [_extract] makes of its payload *)

Lemma bind_ok_inv {A B} (m : M W A) (f : A → M W B) st b st' :
  (m ≫= f) st = (Ok b, st') → ∃ a st1, m st = (Ok a, st1) ∧ f a st1 = (Ok b, st').
Proof.
  rewrite bind_run. destruct (m st) as [[a|e] st1]; [|done]. by exists a, st1.
Qed.

Lemma host_call_ok_inv {A} ev (f : W → (lib_error + A) * W) st a st' :
  host_call ev f st = (Ok a, st') → ∃ w', f (world st) = (inr a, w').
Proof.
  unfold host_call. destruct (f (world st)) as [[err|a'] w']; [done|].
  intros [= -> _]. by exists w'.
Qed.

(** The payload [evaluate_page] returns is what the page sent back. *)
Lemma evaluate_page_payload (self : Pyppeteer.PyppeteerSaver) fmt st result st' :
  Pyppeteer.evaluate_page self fmt st = (Ok result, st') →
  ∃ (page : nat) opt w w',
    evaluate page (Pyppeteer._spec self) opt fmt w = (inr result, w').
Proof.
  unfold Pyppeteer.evaluate_page. intros H.
  apply bind_ok_inv in H as (browser & s1 & _ & H).
  apply bind_ok_inv in H as (page & s2 & _ & H).
  apply bind_ok_inv in H as (? & s3 & _ & H).
  apply bind_ok_inv in H as (? & s4 & _ & H).
  apply bind_ok_inv in H as (opt & s5 & _ & H).
  apply bind_ok_inv in H as (? & s6 & _ & H).
  apply bind_ok_inv in H as (entries & s7 & _ & H).
  apply bind_ok_inv in H as (payload & s8 & Hev & H).
  apply bind_ok_inv in H as (? & s9 & _ & H).
  apply bind_ok_inv in H as (? & s10 & _ & H).
  injection H as -> _.
  apply host_call_ok_inv in Hev as (w' & Hev). by exists page, entries, (world s7), w'.
Qed.

(** What [_extract] makes of a payload of one entry. *)
Lemma extract_run (self : Pyppeteer.PyppeteerSaver) fmt st :
  Pyppeteer._extract self fmt st =
  match Pyppeteer.evaluate_page self fmt st with
  | (Ok result, st1) =>
      match result !! "error", result !! "result" with
      | Some e, _ => (Raise (JavascriptError e), st1)
      | None, Some v => (Ok v, st1)
      | None, None => (Raise (KeyError "result"), st1)
      end
  | (Raise e, st1) => (Raise e, st1)
  end.
Proof.
  unfold Pyppeteer._extract. rewrite bind_run.
  destruct (Pyppeteer.evaluate_page self fmt st) as [[result|e] st1]; [|done].
  case_decide as Hdom; rewrite elem_of_dom in Hdom.
  - destruct Hdom as [e He]. rewrite bind_run. unfold getitem. by rewrite He.
  - apply eq_None_not_Some in Hdom. rewrite Hdom. unfold getitem.
    by destruct (result !! "result").
Qed.

(** The object the script resolves to has one entry, "error" or "result". *)
Lemma payload_one_entry {libs : Page.Libs} (spec : json)
    (embedOpt : gmap string json) (format : string) :
  (∃ err, Page.EXTRACT_CODE spec embedOpt format = {[ "error" := JStr err ]})
  ∨ (∃ v, Page.EXTRACT_CODE spec embedOpt format = {[ "result" := v ]}).
Proof.
  unfold Page.EXTRACT_CODE, Page.error_payload, Page.result_payload.
  repeat (case_decide || case_match); eauto.
Qed.

Lemma payload_unrecognized {libs : Page.Libs} (spec : json)
    (embedOpt : gmap string json) (format : string) :
  format ∉ ["vega"; "png"; "svg"] →
  ∃ err, Page.EXTRACT_CODE spec embedOpt format = {[ "error" := JStr err ]}.
Proof.
  unfold Page.EXTRACT_CODE, Page.error_payload, Page.result_payload.
  rewrite !elem_of_cons, elem_of_nil. intros Hfmt.
  repeat (case_decide || case_match); subst;
    try (exfalso; apply Hfmt; tauto); eauto.
Qed.

Lemma payload_text {libs : Page.Libs} (spec : json)
    (embedOpt : gmap string json) (format : string) v :
  format ≠ "vega" →
  Page.EXTRACT_CODE spec embedOpt format = {[ "result" := v ]} → ∃ s, v = JStr s.
Proof.
  unfold Page.EXTRACT_CODE, Page.error_payload, Page.result_payload.
  intros Hfmt. rewrite decide_False by done.
  repeat (case_decide || case_match); intros Heq;
    apply (f_equal (λ m : gmap string json, m !! "result")) in Heq;
    cbv beta in Heq; rewrite ?lookup_singleton_eq in Heq;
    rewrite ?lookup_singleton_ne in Heq by done; simplify_eq; eauto.
Qed.

(** X10. The object the script resolves to has one entry, "error" with a
    string or "result".  For a format other than "vega", "png" and "svg" it
    is an error, with the message "Unrecognized format: <format>" when
    [vegaEmbed] has rendered the chart.  With format "vega" and a mode other
    than "vega-lite" it is the spec as it came, whatever the libraries do.
    For "png" and "svg" a result is a string. *)
Theorem extract_code_payload {libs : Page.Libs} (spec : json)
    (embedOpt : gmap string json) (format : string) :
  let payload := Page.EXTRACT_CODE spec embedOpt format in
  ((∃ err, payload = {[ "error" := JStr err ]}) ∨ (∃ v, payload = {[ "result" := v ]})) ∧
  (format ∉ ["vega"; "png"; "svg"] →
     (∃ err, payload = {[ "error" := JStr err ]}) ∧
     (∀ result, Page.vegaEmbed spec embedOpt = inr result →
        payload = {[ "error" := JStr ("Unrecognized format: " +:+ format) ]})) ∧
  (format = "vega" → Page.mode_is_vegalite embedOpt = false →
     payload = {[ "result" := spec ]}) ∧
  (format ≠ "vega" → ∀ v, payload = {[ "result" := v ]} → ∃ s, v = JStr s).
Proof.
  cbv zeta. split_and!.
  - apply payload_one_entry.
  - intros Hfmt. split; [by apply payload_unrecognized|].
    intros result Hembed. revert Hfmt. rewrite !elem_of_cons, elem_of_nil. intros Hfmt.
    unfold Page.EXTRACT_CODE, Page.error_payload. rewrite Hembed.
    rewrite !decide_False; [done | intros ->; tauto..].
  - intros -> Hmode. unfold Page.EXTRACT_CODE, Page.result_payload.
    by rewrite decide_True, Hmode.
  - intros Hfmt v. by apply payload_text.
Qed.

(** X11. Let the page run the script: every payload that [evaluate] gives
    back is one [EXTRACT_CODE] resolves to.  Then [_extract] raises
    [KeyError] only for a package that has no version, never for a missing
    entry of the payload.  For a format other than "png", "svg" and "vega"
    [_extract] never returns a value, so [_serialize] never raises its
    [ValueError]; and for "png" [_serialize] never fails its assertion. *)
Theorem extract_of_script (self : Pyppeteer.PyppeteerSaver) fmt ct st :
  (∀ (page : nat) spec opt format w payload w',
     evaluate page spec opt format w = (inr payload, w') →
     ∃ libs : Page.Libs, payload = Page.EXTRACT_CODE spec opt format) →
  (∀ k, (Pyppeteer._extract self fmt st).1 = Raise (KeyError k) →
        k ∈ ["vega"; "vega-lite"; "vega-embed"]
        ∧ Pyppeteer._package_versions self !! k = None) ∧
  (fmt ∉ ["png"; "svg"; "vega"] →
     (∀ v, (Pyppeteer._extract self fmt st).1 ≠ Ok v) ∧
     (∀ msg, (Pyppeteer._serialize self fmt ct st).1 ≠ Raise (ValueError msg))) ∧
  (fmt = "png" → (Pyppeteer._serialize self fmt ct st).1 ≠ Raise AssertionError).
Proof.
  intros Hscript.
  pose proof (evaluate_page_raises self fmt st) as Hraises.
  pose proof (evaluate_page_payload self fmt st) as Hpayload.
  assert (Hshape : ∀ result st1,
    Pyppeteer.evaluate_page self fmt st = (Ok result, st1) →
    ((∃ err, result = {[ "error" := JStr err ]}) ∨ (∃ v, result = {[ "result" := v ]})) ∧
    (fmt ∉ ["vega"; "png"; "svg"] → ∃ err, result = {[ "error" := JStr err ]}) ∧
    (fmt ≠ "vega" → ∀ v, result = {[ "result" := v ]} → ∃ s, v = JStr s)).
  { intros result st1 Hrun.
    destruct (Hpayload _ _ Hrun) as (page & opt & w & w' & Hev).
    destruct (Hscript _ _ _ _ _ _ _ Hev) as [libs ->].
    split_and!.
    - apply payload_one_entry.
    - apply payload_unrecognized.
    - intros Hfmt v. by apply payload_text. }
  assert (Hextract : ∀ v, (Pyppeteer._extract self fmt st).1 = Ok v →
    fmt ∈ ["vega"; "png"; "svg"] ∧ (fmt ≠ "vega" → ∃ s, v = JStr s)).
  { intros v. rewrite extract_run.
    destruct (Pyppeteer.evaluate_page self fmt st) as [[result|e] st1]; [|done].
    destruct (Hshape _ _ eq_refl) as (_ & Hun & Hstr).
    destruct (decide (fmt ∈ ["vega"; "png"; "svg"])) as [Hin|Hout].
    - destruct (result !! "error") eqn:He; [done|].
      destruct (result !! "result") as [v'|] eqn:Hv; [|done].
      simpl. intros [= ->]. split; [done|]. intros Hfmt.
      destruct (Hshape _ _ eq_refl) as ([[err ->]|[v' ->]] & _ & _).
      + by rewrite lookup_singleton_eq in He.
      + rewrite lookup_singleton_eq in Hv. injection Hv as ->. by eapply Hstr.
    - destruct (Hun Hout) as [err ->]. by rewrite lookup_singleton_eq. }
  split_and!.
  - intros k. rewrite extract_run.
    destruct (Pyppeteer.evaluate_page self fmt st) as [[result|e] st1] eqn:Hrun.
    + destruct (Hshape _ _ eq_refl) as ([[err ->]|[v ->]] & _ & _).
      * by rewrite lookup_singleton_eq.
      * rewrite lookup_singleton_ne by done. by rewrite lookup_singleton_eq.
    + simpl. intros [= ->].
      by destruct (Hraises _ _ eq_refl) as [[err ?]|(k' & [= <-] & ?)].
  - intros Hfmt.
    assert (Hnever : ∀ v, (Pyppeteer._extract self fmt st).1 ≠ Ok v).
    { intros v Hv. destruct (Hextract v Hv) as [Hin _].
      apply Hfmt. revert Hin. rewrite !elem_of_cons, !elem_of_nil. tauto. }
    split; [done|]. intros msg. unfold Pyppeteer._serialize. rewrite bind_run.
    destruct (Pyppeteer._extract self fmt st) as [[v|e] st1] eqn:Hrun.
    + by destruct (Hnever v).
    + simpl. intros [= ->]. revert Hrun. rewrite extract_run.
      destruct (Pyppeteer.evaluate_page self fmt st) as [[result|e] st2] eqn:Hrun.
      * by repeat case_match.
      * intros [= -> _].
        by destruct (Hraises _ _ eq_refl) as [[err ?]|(k & ? & _)].
  - intros ->. unfold Pyppeteer._serialize. rewrite bind_run.
    destruct (Pyppeteer._extract self "png" st) as [[v|e] st1] eqn:Hrun.
    + destruct (Hextract v) as [_ Hstr]; [done|].
      destruct Hstr as [s ->]; [done|].
      rewrite decide_True by done.
      destruct (split_once "," s !! 1%nat); [|done].
      rewrite bind_run. unfold lift. by destruct (b64decode _).
    + simpl. intros [= ->]. revert Hrun. rewrite extract_run.
      destruct (Pyppeteer.evaluate_page self "png" st) as [[result|e] st2] eqn:Hrun.
      * by repeat case_match.
      * intros [= -> _].
        by destruct (Hraises _ _ eq_refl) as [[err ?]|(k & ? & _)].
Qed.

End BrowserCoverage.

(** * The constructor of the browser saver *)

Section InitCoverage.
Context {W : Type}.
Implicit Types (st : state W).

Lemma set_heap_same st : set_heap (heap st) st = st.
Proof. by destruct st. Qed.

(** [setdefault] on a new, empty dictionary. *)
Lemma setdefault_new st k v :
  (Init.dict_new ≫= λ l, Init.dict_setdefault l k v;; mret (Some l)) st
  = (Ok (Some (fresh (dom (heap st)))),
     set_heap (<[fresh (dom (heap st)) := <[k := v]> ∅]> (heap st)) st).
Proof.
  rewrite bind_run. unfold Init.dict_new. cbv zeta. rewrite bind_run.
  unfold Init.dict_setdefault. cbn [heap set_heap].
  rewrite lookup_insert_eq, lookup_empty, insert_insert_eq. reflexivity.
Qed.

(** X12. The scale factor in the constructor.  With [scale_factor] equal
    to 1 the embed options go to the base constructor as they came and
    nothing is changed.  Otherwise the base constructor is given a
    dictionary with the caller's entries and "scaleFactor", which is the
    caller's own entry if there is one and [scale_factor] if not.  That
    dictionary is the caller's own, changed in place, when the caller gave a
    dictionary that is not empty; for [None] and for an empty dictionary it
    is a new one, and no dictionary that existed is changed. *)
Theorem init_scale_factor (embed_options : option nat) (scale_factor : json) st :
  (∀ l, embed_options = Some l → is_Some (heap st !! l)) →
  let given : gmap string json := default ∅ (embed_options ≫= (heap st !!.)) in
  if Init.equals_one scale_factor then
    Init.__init__ embed_options scale_factor st = (Ok embed_options, st)
  else
    ∃ l,
      Init.__init__ embed_options scale_factor st
      = (Ok (Some l),
         set_heap (<[l := <["scaleFactor" :=
                              default scale_factor (given !! "scaleFactor")]> given]>
                     (heap st)) st)
      ∧ (if decide (given = ∅) then l ∉ dom (heap st) else embed_options = Some l).
Proof.
  intros Hdict given. unfold Init.__init__.
  destruct (Init.equals_one scale_factor); [done|].
  assert (Hnew : given = ∅ →
    ∃ l, (Init.dict_new ≫= λ l, Init.dict_setdefault l "scaleFactor" scale_factor;;
                                 mret (Some l)) st
         = (Ok (Some l),
            set_heap (<[l := <["scaleFactor" :=
                                 default scale_factor (given !! "scaleFactor")]> given]>
                        (heap st)) st)
      ∧ (if decide (given = ∅) then l ∉ dom (heap st) else embed_options = Some l)).
  { intros ->. exists (fresh (dom (heap st))). rewrite setdefault_new.
    rewrite lookup_empty, decide_True by done. split; [done|]. apply is_fresh. }
  destruct embed_options as [l0|]; [|by apply Hnew].
  destruct (Hdict l0 eq_refl) as [d Hd].
  assert (Hgiven : given = d) by (unfold given; simpl; by rewrite Hd).
  clearbody given. subst given.
  rewrite bind_run. unfold Init.or_new_dict. rewrite Hd.
  destruct (decide (size d = 0)) as [Hsize|Hsize].
  - assert (Hempty : d = ∅) by (by apply map_size_empty_iff).
    destruct (Hnew Hempty) as (l & Hl & Hfresh).
    exists l. split; [|done]. rewrite bind_run in Hl. exact Hl.
  - assert (Hfull : d ≠ ∅) by (by rewrite <- map_size_empty_iff).
    exists l0. rewrite (decide_False (P := d = ∅)) by done.
    split; [|done]. rewrite bind_run.
    unfold Init.dict_setdefault. rewrite Hd.
    destruct (d !! "scaleFactor") as [v|] eqn:Hv; simpl.
    + by rewrite (insert_id d), (insert_id (heap st)), set_heap_same.
    + done.
Qed.

End InitCoverage.

(** * The further properties on concrete machines *)

Section OnScenarios.
Import Fixture.

Lemma converter_not_installed_witness :
  let st1 := (Node.npm_root node0 (start Scenario.bare)).2 in
  Node.vl2vg node0 chart (start Scenario.bare)
  = not_installed node0 "vl2vg" (os_path_join root0 ["vega-lite"; "bin"; "vl2vg"]) st1 ∧
  Node.vg2pdf node0 chart (start Scenario.bare)
  = not_installed node0 "vg2pdf" (os_path_join root0 ["vega-cli"; "bin"; "vg2pdf"]) st1.
Proof.
  intros st1.
  assert (Hroot : Node.npm_root node0 (start Scenario.bare) = (Ok root0, st1))
    by (vm_compute; reflexivity).
  destruct (converter_not_installed node0 chart _ _ _ Hroot) as (Hvl2vg & _ & Hvg2pdf & _).
  split; [apply Hvl2vg | apply Hvg2pdf]; vm_compute; reflexivity.
Defined.

Lemma failed_discovery_not_cached_witness :
  let st1 := (Node.npm_root node0 (start no_root)).2 in
  npm_root_cache st1 = None ∧
  trace (Node.npm_root node0 st1).2
  = [Spawn ["npm"; "root"; "--global"] None; Spawn ["npm"; "root"; "--global"] None].
Proof.
  intros st1.
  assert (Hfail :
    Node.npm_root node0 (start no_root)
    = (Raise (RuntimeError "npm root not found; got /opt/npm/lib/node_modules"), st1))
    by (vm_compute; reflexivity).
  destruct (failed_discovery_not_cached _ _ _ _ Hfail) as (Hcache & Htrace & _ & Hagain).
  split; [exact Hcache|]. rewrite Hagain, Htrace. reflexivity.
Defined.

Lemma tool_failure_propagates_witness :
  let path := os_path_join Scenario.broken_root ["vega-lite"; "bin"; "vl2vg"] in
  Node.vl2vg node0 chart (start Scenario.broken)
  = tool_failed path (str_encode (json_dumps chart)) called_process_error
      Scenario.broken (Node.npm_root node0 (start Scenario.broken)).2.
Proof.
  intros path.
  assert (Hroot :
    Node.npm_root node0 (start Scenario.broken)
    = (Ok Scenario.broken_root, (Node.npm_root node0 (start Scenario.broken)).2))
    by (vm_compute; reflexivity).
  apply (proj1 (tool_failure_propagates node0 chart _ _ _
                  called_process_error Scenario.broken Hroot) path eq_refl);
    vm_compute; reflexivity.
Defined.


Lemma request_errors_witness :
  let not_json := LibraryError (LibError "JSONDecodeError" "Expecting value") in
  Node._mimebundle (node_saver "altair") "png" (start installed)
  = (Raise (ValueError "mode must be either 'vega' or 'vega-lite'"), start installed) ∧
  (Node._mimebundle (host:=Scenario.usage_host) (node_saver "vega-lite") "png"
     (start installed)).1 = Raise not_json ∧
  tool_error not_json ∧ isinstance not_json "ValueError" = true.
Proof.
  intros not_json. split_and!.
  - apply (proj1 (request_errors (node_saver "altair") "png" (start installed))).
    rewrite mode_known. intros [?|?]; discriminate.
  - vm_compute; reflexivity.
  - apply (proj2 (request_errors (host:=Scenario.usage_host) (node_saver "vega-lite") "png"
                    (start installed))
             vegalite_png_compatible _
             (Node._mimebundle (host:=Scenario.usage_host) (node_saver "vega-lite") "png"
                (start installed)).2).
    vm_compute; reflexivity.
  - vm_compute; reflexivity.
Defined.

Lemma mimebundle_by_conversion_witness :
  Node._mimebundle (node_saver "vega-lite") "png" (start installed)
  = bundled "image/png" CBytes (Node.vl2png node0 chart (start installed)) ∧
  Node._mimebundle (node_saver "vega") "svg" (start installed)
  = bundled "image/svg+xml" (λ s, CVal (JStr s)) (Node.vg2svg node0 chart (start installed)).
Proof.
  split.
  - exact (proj1 (proj1 (mimebundle_by_conversion (node_saver "vega-lite") (start installed))
                    eq_refl)).
  - exact (proj2 (proj2 (proj2 (mimebundle_by_conversion (node_saver "vega") (start installed))
                           eq_refl))).
Defined.

Lemma serialize_png_errors_witness :
  let null_page := Scenario.page_host (λ _ _ _, {[ "result" := JNull ]}) in
  let blank := Scenario.script_host "about:blank" in
  let garbled := Scenario.script_host "data:image/png;base64,AA" in
  (Pyppeteer._serialize (host:=null_page) (browser_saver "vega-lite") "png" "mimebundle"
     (start installed)).1 = Raise AssertionError ∧
  (Pyppeteer._serialize (host:=blank) (browser_saver "vega-lite") "png" "mimebundle"
     (start installed)).1 = Raise IndexError ∧
  (Pyppeteer._serialize (host:=garbled) (browser_saver "vega-lite") "png" "mimebundle"
     (start installed)).1 = Raise (LibraryError padding).
Proof.
  intros null_page blank garbled.
  assert (Hnull :
    Pyppeteer._extract (host:=null_page) (browser_saver "vega-lite") "png" (start installed)
    = (Ok JNull,
       (Pyppeteer._extract (host:=null_page) (browser_saver "vega-lite") "png"
          (start installed)).2))
    by (vm_compute; reflexivity).
  assert (Hblank :
    Pyppeteer._extract (host:=blank) (browser_saver "vega-lite") "png" (start installed)
    = (Ok (JStr "about:blank"),
       (Pyppeteer._extract (host:=blank) (browser_saver "vega-lite") "png"
          (start installed)).2))
    by (vm_compute; reflexivity).
  assert (Hgarbled :
    Pyppeteer._extract (host:=garbled) (browser_saver "vega-lite") "png" (start installed)
    = (Ok (JStr "data:image/png;base64,AA"),
       (Pyppeteer._extract (host:=garbled) (browser_saver "vega-lite") "png"
          (start installed)).2))
    by (vm_compute; reflexivity).
  split_and!.
  - rewrite (proj1 (serialize_png_errors (host:=null_page) _ "mimebundle" _ _ _ Hnull));
      [reflexivity | discriminate].
  - rewrite (proj1 (proj2 (serialize_png_errors (host:=blank) _ "mimebundle" _ _ _ Hblank))
               "about:blank" eq_refl); reflexivity.
  - rewrite (proj2 (proj2 (serialize_png_errors (host:=garbled) _ "mimebundle" _ _ _ Hgarbled))
               "data:image/png;base64" "AA" padding eq_refl); reflexivity.
Defined.

Lemma browser_session_witness :
  (∃ evs, trace (Pyppeteer._extract Scenario.unpinned_saver "png" (start installed)).2 = evs
          ∧ BrowserLaunch ∈ evs ∧ ∀ b, BrowserClose b ∉ evs) ∧
  BrowserClose 1 ∈ trace (Pyppeteer._extract (browser_saver "vega-lite") "png"
                            (start installed)).2.
Proof.
  split.
  - destruct (browser_session Scenario.unpinned_saver "png" (start installed))
      as (evs & Htrace & _ & _ & _ & Hclose).
    exists evs. split; [exact Htrace|].
    vm_compute in Htrace. subst evs. split; [by left|].
    intros b Hb. specialize (Hclose b Hb). vm_compute in Hclose. discriminate.
  - destruct (browser_session (browser_saver "vega-lite") "png" (start installed))
      as (evs & Htrace & _ & Hok & _).
    rewrite Htrace, (Hok (JStr "data:image/png;base64,iVBORw==")) by (vm_compute; reflexivity).
    vm_compute. do 8 right. by left.
Defined.

Lemma extract_code_payload_witness :
  Page.EXTRACT_CODE (libs:=Scenario.libs "about:blank") chart
    {[ "mode" := JStr "vega-lite" ]} "jpeg"
  = {[ "error" := JStr "Unrecognized format: jpeg" ]} ∧
  Page.EXTRACT_CODE (libs:=Scenario.libs "about:blank") JNull {[ "mode" := JStr "vega" ]} "vega"
  = {[ "result" := JNull ]}.
Proof.
  split.
  - destruct (extract_code_payload (libs:=Scenario.libs "about:blank") chart
                {[ "mode" := JStr "vega-lite" ]} "jpeg") as (_ & Hunknown & _).
    destruct Hunknown as [_ Hmessage].
    + rewrite !elem_of_cons, elem_of_nil. intros H. destruct_or!; discriminate.
    + exact (Hmessage tt eq_refl).
  - destruct (extract_code_payload (libs:=Scenario.libs "about:blank") JNull
                {[ "mode" := JStr "vega" ]} "vega") as (_ & _ & Hvega & _).
    apply Hvega; [reflexivity | vm_compute; reflexivity].
Defined.

Lemma extract_of_script_witness :
  let page := Scenario.script_host "data:image/png;base64,iVBORw==" in
  (∀ v, (Pyppeteer._extract (host:=page) (browser_saver "vega-lite") "jpeg"
           (start installed)).1 ≠ Ok v) ∧
  (∀ msg, (Pyppeteer._serialize (host:=page) (browser_saver "vega-lite") "jpeg" "mimebundle"
             (start installed)).1 ≠ Raise (ValueError msg)).
Proof.
  intros page.
  assert (Hscript : ∀ (p : nat) spec opt format w payload w',
    evaluate (Host:=page) p spec opt format w = (inr payload, w') →
    ∃ libs : Page.Libs, payload = Page.EXTRACT_CODE spec opt format).
  { intros p spec opt format w payload w' [= <- _].
    by exists (Scenario.libs "data:image/png;base64,iVBORw=="). }
  destruct (extract_of_script (host:=page) (browser_saver "vega-lite") "jpeg" "mimebundle"
              (start installed) Hscript) as (_ & Hunknown & _).
  apply Hunknown. rewrite !elem_of_cons, elem_of_nil. intros H. destruct_or!; discriminate.
Defined.

Lemma init_scale_factor_witness :
  (Init.__init__ (Some 0%nat) (JNum 2) (start installed)).1 = Ok (Some 0%nat) ∧
  heap (Init.__init__ (Some 0%nat) (JNum 2) (start installed)).2 !! 0%nat
  = Some (<[ "scaleFactor" := JNum 2 ]> embed_options) ∧
  Init.__init__ (Some 0%nat) (JNum 1) (start installed) = (Ok (Some 0%nat), start installed).
Proof.
  assert (Hdict : ∀ l, Some 0%nat = Some l → is_Some (heap (start installed) !! l)).
  { intros l [= <-]. exists embed_options. vm_compute; reflexivity. }
  split_and!.
  - destruct (init_scale_factor (Some 0%nat) (JNum 2) (start installed) Hdict)
      as (l & Hrun & Hsame).
    rewrite decide_False in Hsame by (vm_compute; discriminate).
    injection Hsame as <-. by rewrite Hrun.
  - destruct (init_scale_factor (Some 0%nat) (JNum 2) (start installed) Hdict)
      as (l & Hrun & Hsame).
    rewrite decide_False in Hsame by (vm_compute; discriminate).
    injection Hsame as <-. rewrite Hrun. vm_compute; reflexivity.
  - exact (init_scale_factor (Some 0%nat) (JNum 1) (start installed) Hdict).
Defined.

End OnScenarios.
